(** * Verification of the investment research assistant (invest.py)

    A shallow embedding of the orchestration code of [src/invest.py]:
    the values that [json.loads] yields, the Python operations the
    program applies to them, the exceptions those operations raise, and
    the functions [get_stock_info], [get_stock_info_with_api],
    [extract_insights_from_url], [process_news_data],
    [get_eleven_labs_voices], [select_voice] and [text_to_speech].

    The external collaborators (the LLM endpoint, the HTTP client, the
    JSON parser, the process environment, the console and the file
    system) are parameters of the development: every theorem holds for
    all of their behaviours.  Console output is not recorded; the
    evaluation of what is printed is, because it can raise.  A second
    part embeds the display functions, [find_news_stories],
    [generate_brain_rot_explanation], [get_subway_surfers_video],
    [do_research] and [lookup_stock].  The menu loop, [brain_rot_mode]
    and [create_brain_rot_video], whose clips and floating-point
    durations belong to the video library, are outside the embedding. *)

From Equations Require Import Equations.
From Stdlib Require Import Ascii.
From stdpp Require Import base option list strings gmap pretty.

Set Warnings "-register-all".
Local Open Scope string_scope.
Local Open Scope list_scope.
Local Open Scope stdpp_scope.

(** ** Python values

    The values produced by [json.loads]: [None], booleans, integers,
    strings, lists and dicts.  A dict is kept as the list of its items in
    insertion order, because iterating a dict yields its keys in that
    order.  Floating-point numbers are left out. *)

Inductive pyval : Type :=
| PNone
| PBool (b : bool)
| PInt (z : Z)
| PStr (s : string)
| PList (l : list pyval)
| PDict (d : list (string * pyval)).

(** First item stored under key [k]. *)
Fixpoint dict_lookup (k : string) (d : list (string * pyval)) : option pyval :=
  match d with
  | [] => None
  | (k', v) :: d' => if String.eqb k k' then Some v else dict_lookup k d'
  end.

Definition dict_has (k : string) (d : list (string * pyval)) : bool :=
  match dict_lookup k d with Some _ => true | None => false end.

Definition dict_keys (d : list (string * pyval)) : list string := map fst d.

(** Python's [==] on these values.  [bool] is a subclass of [int], so
    [True == 1]; two lists are equal when they have the same length and
    equal elements; two dicts are equal when they have the same number
    of items and every key of the first is bound to an equal value in
    the second. *)
Fixpoint py_eq (a b : pyval) {struct a} : bool :=
  match a, b with
  | PNone, PNone => true
  | PBool x, PBool y => Bool.eqb x y
  | PBool x, PInt y => Z.eqb (Z.b2z x) y
  | PInt x, PBool y => Z.eqb x (Z.b2z y)
  | PInt x, PInt y => Z.eqb x y
  | PStr x, PStr y => String.eqb x y
  | PList xs, PList ys =>
      (fix list_eq (xs ys : list pyval) {struct xs} : bool :=
         match xs, ys with
         | [], [] => true
         | x :: xs', y :: ys' => py_eq x y && list_eq xs' ys'
         | _, _ => false
         end) xs ys
  | PDict d1, PDict d2 =>
      Nat.eqb (length d1) (length d2) &&
      (fix items_eq (d : list (string * pyval)) {struct d} : bool :=
         match d with
         | [] => true
         | (k, v) :: d' =>
             match dict_lookup k d2 with
             | Some v' => py_eq v v' && items_eq d'
             | None => false
             end
         end) d1
  | _, _ => false
  end.

(** [x in l] for a Python list [l]: some item of [l] equals [x]. *)
Definition list_contains (x : pyval) (l : list pyval) : bool :=
  existsb (fun item => py_eq item x) l.

Definition isinstance_str (v : pyval) : bool :=
  match v with PStr _ => true | _ => false end.

Definition isinstance_dict (v : pyval) : bool :=
  match v with PDict _ => true | _ => false end.

(** Truth value of an object ([if not x]). *)
Definition py_truthy (v : pyval) : bool :=
  match v with
  | PNone => false
  | PBool b => b
  | PInt z => negb (Z.eqb z 0)
  | PStr s => negb (String.eqb s EmptyString)
  | PList l => match l with [] => false | _ => true end
  | PDict d => match d with [] => false | _ => true end
  end.

(** ** Exceptions and results *)

Inductive exn : Type :=
| TypeError (what : string)
| KeyError (key : string)
| AttributeError (attr : string)
| ValueError
| JSONDecodeError
| EOFError
| IndexError
| RecursionError
| OSError (path : string)
| RequestError (detail : string).

(** [json.JSONDecodeError] is a subclass of [ValueError]. *)
Definition is_ValueError (e : exn) : bool :=
  match e with ValueError | JSONDecodeError => true | _ => false end.

Definition is_JSONDecodeError (e : exn) : bool :=
  match e with JSONDecodeError => true | _ => false end.

Inductive result (A : Type) : Type :=
| Ok (a : A)
| Raise (e : exn).
Arguments Ok {A} a.
Arguments Raise {A} e.

#[global] Instance result_ret : MRet result := fun _ a => Ok a.
#[global] Instance result_bind : MBind result := fun _ _ f r =>
  match r with
  | Ok a => f a
  | Raise e => Raise e
  end.

(** [try: body except Exception as e: handler e]. *)
Definition try_except {A} (body : result A) (handler : exn -> result A) : result A :=
  match body with
  | Ok a => Ok a
  | Raise e => handler e
  end.

(** ** Operations on values that can raise *)

Definition is_substring (k s : string) : bool :=
  match String.index 0 k s with Some _ => true | None => false end.

(** ['k' in c] for a string literal ['k']: substring test on a string,
    membership on a list, key test on a dict, [TypeError] otherwise. *)
Definition str_in (k : string) (c : pyval) : result bool :=
  match c with
  | PStr s => Ok (is_substring k s)
  | PList l => Ok (list_contains (PStr k) l)
  | PDict d => Ok (dict_has k d)
  | _ => Raise (TypeError "argument is not iterable")
  end.

(** [c['k']] for a string literal ['k']. *)
Definition py_getitem (c : pyval) (k : string) : result pyval :=
  match c with
  | PDict d =>
      match dict_lookup k d with
      | Some v => Ok v
      | None => Raise (KeyError k)
      end
  | PStr _ | PList _ => Raise (TypeError "indices must be integers")
  | _ => Raise (TypeError "object is not subscriptable")
  end.

(** [c.get('k', default)]: only dicts have the method. *)
Definition py_get (c : pyval) (k : string) (dflt : pyval) : result pyval :=
  match c with
  | PDict d => Ok (default dflt (dict_lookup k d))
  | _ => Raise (AttributeError "get")
  end.

(** [for x in v]: a list yields its items, a string its characters, a
    dict its keys; anything else is not iterable. *)
Definition py_iter (v : pyval) : result (list pyval) :=
  match v with
  | PList l => Ok l
  | PStr s => Ok (map (fun c => PStr (String c EmptyString)) (String.list_ascii_of_string s))
  | PDict d => Ok (map PStr (dict_keys d))
  | _ => Raise (TypeError "object is not iterable")
  end.

(** [len(v)]. *)
Definition py_len (v : pyval) : result Z :=
  match v with
  | PList l => Ok (Z.of_nat (length l))
  | PStr s => Ok (Z.of_nat (String.length s))
  | PDict d => Ok (Z.of_nat (length d))
  | _ => Raise (TypeError "object has no len()")
  end.

(** [v[i]] for an integer [i] with [0 <= i]: item of a list, character
    of a string; a dict from [json.loads] has only string keys. *)
Definition py_index (v : pyval) (i : Z) : result pyval :=
  match v with
  | PList l =>
      match l !! Z.to_nat i with
      | Some x => Ok x
      | None => Raise IndexError
      end
  | PStr s =>
      match String.get (Z.to_nat i) s with
      | Some c => Ok (PStr (String c EmptyString))
      | None => Raise IndexError
      end
  | PDict _ => Raise (KeyError "integer key")
  | _ => Raise (TypeError "object is not subscriptable")
  end.

(** [v[:100]]: defined on strings and lists. *)
Definition py_slice100 (v : pyval) : result pyval :=
  match v with
  | PStr s => Ok (PStr (String.substring 0 100 s))
  | PList l => Ok (PList (take 100 l))
  | PDict _ => Raise (TypeError "unhashable type: slice")
  | _ => Raise (TypeError "object is not subscriptable")
  end.

(** ** The interfaces of the outside world *)

(** An HTTP response of [requests]: status code and body.
    [response.json()] parses the body. *)
Record response : Type := mkResponse {
  status_code : Z;
  content : string
}.

(** An item of [response.output] of the LLM client.  [item_name],
    [item_arguments] and [item_call_id] are read only on items whose
    type is [function_call]. *)
Record output_item : Type := mkItem {
  item_type : string;
  item_name : string;
  item_arguments : string;
  item_call_id : string
}.

Record llm_response : Type := mkLLMResponse {
  output : list output_item;
  output_text : string
}.

(** An element of a message list sent as [input]: a dict built by the
    program, or an output item of an earlier response passed back. *)
Inductive input_item : Type :=
| InputDict (d : pyval)
| InputCall (c : output_item).

Inductive llm_input : Type :=
| InputText (s : string)
| InputItems (l : list input_item).

Record llm_request : Type := mkRequest {
  model : string;
  tools : pyval;
  input : llm_input
}.

(** The JSON body of the synthesis request.  The four fixed
    voice-tuning constants of the source are not part of the model. *)
Record tts_body : Type := mkBody {
  body_text : string;
  body_model_id : string
}.

(** Everything the program calls but does not define.
    - [json_loads s] is [None] when [json.loads s] raises, and
      [loads_error s] is then the exception it raises:
      [JSONDecodeError] for malformed text, and also [ValueError] for
      an integer literal over the digit limit and [RecursionError] for
      nesting deeper than the parser goes;
    - [py_int s] is [None] when [int(s)] raises [ValueError];
    - [py_repr] is [repr] on lists and dicts, [exn_str] is [str(e)];
    - [responses_create n req] is the outcome of the [n]-th call of
      [openai_client.responses.create] of the run, made with [req];
    - [requests_get] and [requests_post] answer a request by its URL,
      body and headers (each function modelled here sends at most one);
    - [open_error path] is the exception raised by
      [open(path, 'wb')], if any. *)
Class External : Type := {
  json_loads : string -> option pyval;
  loads_error : string -> exn;
  py_int : string -> option Z;
  py_repr : pyval -> string;
  exn_str : exn -> string;
  environ : string -> option string;
  requests_get : string -> list (string * string) -> result response;
  requests_post : string -> tts_body -> list (string * string) -> result response;
  responses_create : nat -> llm_request -> result llm_response;
  open_error : string -> option exn
}.

(** ** The state of a run: [Config]'s mutable fields, the number of LLM
    calls made so far, the lines waiting on standard input and the
    files written. *)
Record World : Type := mkWorld {
  all_insights : list pyval;
  all_key_players : list pyval;
  all_tickers : list pyval;
  llm_calls : nat;
  stdin : list string;
  files : gmap string string
}.

Definition set_all_insights (l : list pyval) (w : World) : World :=
  mkWorld l (all_key_players w) (all_tickers w) (llm_calls w) (stdin w) (files w).
Definition set_all_key_players (l : list pyval) (w : World) : World :=
  mkWorld (all_insights w) l (all_tickers w) (llm_calls w) (stdin w) (files w).
Definition set_all_tickers (l : list pyval) (w : World) : World :=
  mkWorld (all_insights w) (all_key_players w) l (llm_calls w) (stdin w) (files w).
Definition set_llm_calls (n : nat) (w : World) : World :=
  mkWorld (all_insights w) (all_key_players w) (all_tickers w) n (stdin w) (files w).
Definition set_stdin (l : list string) (w : World) : World :=
  mkWorld (all_insights w) (all_key_players w) (all_tickers w) (llm_calls w) l (files w).
Definition set_files (f : gmap string string) (w : World) : World :=
  mkWorld (all_insights w) (all_key_players w) (all_tickers w) (llm_calls w) (stdin w) f.

(** A computation returns or raises, and leaves a state behind in both
    cases. *)
Definition M (A : Type) : Type := World -> result A * World.

#[global] Instance M_ret : MRet M := fun _ a w => (Ok a, w).
#[global] Instance M_bind : MBind M := fun _ _ f m w =>
  match m w with
  | (Ok a, w') => f a w'
  | (Raise e, w') => (Raise e, w')
  end.

Definition lift {A} (r : result A) : M A := fun w => (r, w).
Definition gets {A} (f : World -> A) : M A := fun w => (Ok (f w), w).
Definition modify (f : World -> World) : M unit := fun w => (Ok tt, f w).

(** [try: body except ...: handler e]; a handler that does not catch
    [e] raises it again. *)
Definition try_except_M {A} (body : M A) (handler : exn -> M A) : M A := fun w =>
  match body w with
  | (Ok a, w') => (Ok a, w')
  | (Raise e, w') => handler e w'
  end.

(** [for x in l: body x]. *)
Fixpoint for_each {A} (body : A -> M unit) (l : list A) : M unit :=
  match l with
  | [] => mret tt
  | x :: l' => _ ← body x; for_each body l'
  end.

(** [input(...)]: the next line of standard input, [EOFError] at its
    end. *)
Definition input_line : M string := fun w =>
  match stdin w with
  | [] => (Raise EOFError, w)
  | line :: rest => (Ok line, set_stdin rest w)
  end.

(** ** The program *)

Section Program.
Context `{External}.

(** [str(v)], also what an f-string inserts for [{v}]. *)
Definition py_str (v : pyval) : string :=
  match v with
  | PStr s => s
  | PNone => "None"
  | PBool true => "True"
  | PBool false => "False"
  | PInt z => pretty z
  | PList _ | PDict _ => py_repr v
  end.

(** What an f-string inserts for the result of [os.environ.get]. *)
Definition format_env (o : option string) : string :=
  match o with Some s => s | None => "None" end.

(** [not api_key] is false exactly for a non-empty string. *)
Definition env_truthy (o : option string) : bool :=
  match o with Some s => negb (String.eqb s EmptyString) | None => false end.

(** [json.loads s]: the parsed value, or the exception the parser
    raises, which is not always a [JSONDecodeError]. *)
Definition loads (s : string) : result pyval :=
  match json_loads s with
  | Some v => Ok v
  | None => Raise (loads_error s)
  end.

Definition response_json (r : response) : result pyval := loads (content r).

Definition to_int (s : string) : result Z :=
  match py_int s with
  | Some z => Ok z
  | None => Raise ValueError
  end.

(** One call of [openai_client.responses.create]. *)
Definition llm_create (req : llm_request) : M llm_response := fun w =>
  (responses_create (llm_calls w) req, set_llm_calls (S (llm_calls w)) w).

Definition newline : string := String "010"%char EmptyString.

(** *** class Config *)

(** [Config.tools] *)
Definition config_tools : pyval :=
  PList [PDict [
    ("type", PStr "function");
    ("name", PStr "get_stock_info");
    ("description", PStr "Get current stock information for a company by ticker symbol");
    ("parameters", PDict [
       ("type", PStr "object");
       ("properties", PDict [
          ("ticker_symbol", PDict [
             ("type", PStr "string");
             ("description", PStr "The stock ticker symbol, e.g., AAPL for Apple Inc.")])]);
       ("required", PList [PStr "ticker_symbol"]);
       ("additionalProperties", PBool false)]);
    ("strict", PBool true)]].

Definition web_search_tools : pyval :=
  PList [PDict [("type", PStr "web_search_preview")]].

(** *** class StockAnalyzer *)

Definition get_stock_info (ticker_symbol : pyval) : result pyval :=
  let api_key := environ "ALPHA_VANTAGE_API_KEY" in
  let url := "https://www.alphavantage.co/query?function=GLOBAL_QUOTE&symbol="
             +:+ py_str ticker_symbol +:+ "&apikey=" +:+ format_env api_key in
  try_except
    (response ← requests_get url [];
     data ← response_json response;
     has_quote ← str_in "Global Quote" data;
     has_price ← (if has_quote : bool
                  then quote ← py_getitem data "Global Quote"; str_in "05. price" quote
                  else Ok false);
     if has_price : bool
     then quote ← py_getitem data "Global Quote"; py_getitem quote "05. price"
     else Ok (PStr ("Could not retrieve price for " +:+ py_str ticker_symbol)))
    (fun e => Ok (PStr ("Error: " +:+ exn_str e))).

Definition stock_prompt (ticker : pyval) : string :=
  "Get the current stock information for the ticker: " +:+ py_str ticker.

Definition is_stock_call (tool_call : output_item) : bool :=
  String.eqb (item_type tool_call) "function_call"
  && String.eqb (item_name tool_call) "get_stock_info".

(** The message list of the second round trip. *)
Definition follow_up (ticker : pyval) (tool_call : output_item) (result : pyval)
  : list input_item :=
  [ InputDict (PDict [("role", PStr "user"); ("content", PStr (stock_prompt ticker))]);
    InputCall tool_call;
    InputDict (PDict [("type", PStr "function_call_output");
                      ("call_id", PStr (item_call_id tool_call));
                      ("output", PStr (py_str result))]) ].

(** The loop over [response.output]; [fallback] is the output text of
    the first response, returned when the loop ends. *)
Fixpoint scan_tool_calls (ticker : pyval) (calls : list output_item) (fallback : string)
  : M string :=
  match calls with
  | [] => mret fallback
  | tool_call :: rest =>
      if is_stock_call tool_call then
        args ← lift (loads (item_arguments tool_call));
        ticker_symbol ← lift (py_get args "ticker_symbol" PNone);
        result ← lift (get_stock_info ticker_symbol);
        final_response ← llm_create
          (mkRequest "gpt-4o" config_tools (InputItems (follow_up ticker tool_call result)));
        mret (output_text final_response)
      else scan_tool_calls ticker rest fallback
  end.

Definition get_stock_info_with_api (ticker : pyval) : M string :=
  response ← llm_create
    (mkRequest "gpt-4o" config_tools (InputText (stock_prompt ticker)));
  scan_tool_calls ticker (output response) (output_text response).

(** *** class NewsAnalyzer *)

Definition extract_prompt (url : pyval) : string :=
  "Visit this URL: " +:+ py_str url +:+ " and extract the following information:" +:+ newline
  +:+ "1. Key insights and main points from the article" +:+ newline
  +:+ "2. Key companies/players mentioned" +:+ newline
  +:+ "3. Stock ticker symbols for these companies if applicable. Make sure you are giving stock tickers, not company names. For example, if the company is Apple, the stock ticker is AAPL. If the company is Tesla, the stock ticker is TSLA. Even if there are no stock companies directly, try to think of companies that are indirectly related or will be affected by the news. Only mention the top 3 companies affected and an analysis of why they are affected, how their stock prices might be affected, and what the future might hold for them." +:+ newline
  +:+ "Format the response as JSON with keys 'insights', 'key_players', and 'tickers'. Make sure you dont include ``` json ``` tags in the response.".

Definition empty_record : pyval :=
  PDict [("insights", PList []); ("key_players", PList []); ("tickers", PList [])].

Definition extract_insights_from_url (url : pyval) (index : nat) : M pyval :=
  response ← llm_create
    (mkRequest "gpt-4o" web_search_tools (InputText (extract_prompt url)));
  lift (try_except (loads (output_text response))
          (fun e => if is_JSONDecodeError e then Ok empty_record else Raise e)).

(** The first loop of [process_news_data]: the URLs of the articles
    that have one.  Printing an article evaluates [article['title']]
    and, when there is a description, [article['description'][:100]]. *)
Fixpoint collect_urls (articles : list pyval) (urls : list pyval) : result (list pyval) :=
  match articles with
  | [] => Ok urls
  | article :: rest =>
      has_url ← str_in "url" article;
      if has_url : bool then
        url ← py_getitem article "url";
        _ ← py_getitem article "title";
        _ ← py_getitem article "url";
        has_description ← str_in "description" article;
        _ ← (if has_description : bool
             then description ← py_getitem article "description"; py_slice100 description
             else Ok PNone);
        collect_urls rest (urls ++ [url])
      else collect_urls rest urls
  end.

Definition add_player (player : pyval) : M unit :=
  players ← gets all_key_players;
  if negb (list_contains player players)
  then modify (set_all_key_players (players ++ [player]))
  else mret tt.

Definition add_ticker (ticker : pyval) : M unit :=
  tickers ← gets all_tickers;
  if isinstance_str ticker && negb (list_contains ticker tickers) then
    modify (set_all_tickers (tickers ++ [ticker]))
  else
    in_symbol ← lift (if isinstance_dict ticker then str_in "symbol" ticker else Ok false);
    if in_symbol : bool then
      symbol ← lift (py_getitem ticker "symbol");
      tickers ← gets all_tickers;
      if negb (list_contains symbol tickers)
      then modify (set_all_tickers (tickers ++ [symbol]))
      else mret tt
    else
      in_ticker ← lift (if isinstance_dict ticker then str_in "ticker" ticker else Ok false);
      if in_ticker : bool then
        ticker_symbol ← lift (py_getitem ticker "ticker");
        tickers ← gets all_tickers;
        if negb (list_contains ticker_symbol tickers)
        then modify (set_all_tickers (tickers ++ [ticker_symbol]))
        else mret tt
      else mret tt.

Definition insight_record (url insights key_players tickers : pyval) : pyval :=
  PDict [("url", url); ("insights", insights);
         ("key_players", key_players); ("tickers", tickers)].

(** The body of the second loop, for one URL. *)
Definition analyze_article (url : pyval) (index : nat) : M unit :=
  result ← extract_insights_from_url url index;
  insights ← lift (py_get result "insights" (PList []));
  key_players ← lift (py_get result "key_players" (PList []));
  tickers ← lift (py_get result "tickers" (PList []));
  _ ← (insights_so_far ← gets all_insights;
       modify (set_all_insights
                 (insights_so_far ++ [insight_record url insights key_players tickers])));
  players ← lift (key_players ← py_get result "key_players" (PList []); py_iter key_players);
  _ ← for_each add_player players;
  elements ← lift (tickers ← py_get result "tickers" (PList []); py_iter tickers);
  for_each add_ticker elements.

(** [for i, url in enumerate(urls, 1)]. *)
Fixpoint analyze_articles (urls : list pyval) (index : nat) : M unit :=
  match urls with
  | [] => mret tt
  | url :: rest => _ ← analyze_article url index; analyze_articles rest (S index)
  end.

Definition reset_aggregates (w : World) : World :=
  set_all_tickers [] (set_all_key_players [] (set_all_insights [] w)).

Definition process_news_data (news_data : pyval) : M bool :=
  articles ← lift (py_iter news_data);
  urls ← lift (collect_urls articles []);
  if negb (py_truthy (PList urls)) then mret false
  else
    _ ← modify reset_aggregates;
    _ ← analyze_articles urls 1;
    mret true.

(** *** class BrainRotGenerator *)

Definition default_voice : pyval := PStr "21m00Tcm4TlvDq8ikWAM".

Definition get_eleven_labs_voices : result pyval :=
  let api_key := environ "ELEVEN_LABS_API_KEY" in
  if negb (env_truthy api_key) then Ok PNone
  else
    let url := "https://api.elevenlabs.io/v1/voices" in
    let headers := [("Accept", "application/json"); ("xi-api-key", format_env api_key)] in
    try_except
      (response ← requests_get url headers;
       if Z.eqb (status_code response) 200 then
         data ← response_json response;
         py_get data "voices" (PList [])
       else Ok PNone)
      (fun e => Ok PNone).

(** Printing the catalogue evaluates [voice['name']] and
    [voice['voice_id']] for every voice. *)
Fixpoint display_voices (voices : list pyval) : result unit :=
  match voices with
  | [] => Ok tt
  | voice :: rest =>
      _ ← py_getitem voice "name";
      _ ← py_getitem voice "voice_id";
      display_voices rest
  end.

Definition select_voice : M pyval :=
  voices ← lift get_eleven_labs_voices;
  if negb (py_truthy voices) then mret default_voice
  else
    listed ← lift (py_iter voices);
    _ ← lift (display_voices listed);
    try_except_M
      (_ ← lift (py_len voices);
       choice ← input_line;
       if negb (py_truthy (PStr choice)) then mret default_voice
       else
         choice ← lift (to_int choice);
         count ← lift (py_len voices);
         if Z.leb 1 choice && Z.leb choice count then
           selected_voice ← lift (py_index voices (choice - 1));
           _ ← lift (py_getitem selected_voice "name");
           lift (py_getitem selected_voice "voice_id")
         else mret default_voice)
      (fun e => if is_ValueError e then mret default_voice else lift (Raise e)).

(** [with open(output_file, 'wb') as f: f.write(data)] *)
Definition write_file (output_file data : string) : M unit := fun w =>
  match open_error output_file with
  | Some e => (Raise e, w)
  | None => (Ok tt, set_files (<[output_file := data]> (files w)) w)
  end.

Definition text_to_speech (text output_file : string) : M pyval :=
  let api_key := environ "ELEVEN_LABS_API_KEY" in
  if negb (env_truthy api_key) then mret PNone
  else
    voice_id ← select_voice;
    let url := "https://api.elevenlabs.io/v1/text-to-speech/" +:+ py_str voice_id in
    let headers := [("Accept", "audio/mpeg"); ("Content-Type", "application/json");
                    ("xi-api-key", format_env api_key)] in
    let data := mkBody text "eleven_multilingual_v2" in
    try_except_M
      (response ← lift (requests_post url data headers);
       if Z.eqb (status_code response) 200 then
         _ ← write_file output_file (content response);
         mret (PStr output_file)
       else mret PNone)
      (fun e => mret PNone).

End Program.

(** ** The rest of the program

    The functions below complete the classes above.  What a display
    function prints is kept as the list of its data-carrying lines, one
    constructor of [shown] per [print] statement that interpolates a
    value; banners and colour codes are left out, and the list is what a
    call that completes has printed. *)

Inductive shown : Type :=
| ShownArticle (index : nat) (url : pyval)
| ShownInsight (point : pyval)
| ShownPlayer (player : pyval)
| ShownTicker (ticker : pyval)
| SummaryPlayer (player : pyval)
| SummaryTicker (ticker : pyval)
| ShownPrice (ticker : pyval) (stock_info : string)
| ShownAnalysis (analysis : pyval).

(** [sep.join(l)]: every item must be a string. *)
Fixpoint py_join (sep : string) (l : list pyval) : result string :=
  match l with
  | [] => Ok EmptyString
  | x :: rest =>
      match x with
      | PStr s =>
          match rest with
          | [] => Ok s
          | _ => tail ← py_join sep rest; Ok (s +:+ sep +:+ tail)
          end
      | _ => Raise (TypeError "sequence item: expected str instance")
      end
  end.

(** A Python dict with arbitrary hashable keys, as the list of its
    items.  Lists and dicts are unhashable; the other values hash
    consistently with [==]. *)
Definition hashable (v : pyval) : bool :=
  match v with PList _ | PDict _ => false | _ => true end.

Fixpoint items_lookup (k : pyval) (d : list (pyval * pyval)) : option pyval :=
  match d with
  | [] => None
  | (k', v) :: d' => if py_eq k' k then Some v else items_lookup k d'
  end.

Fixpoint items_store (k v : pyval) (d : list (pyval * pyval)) : list (pyval * pyval) :=
  match d with
  | [] => [(k, v)]
  | (k', v') :: d' => if py_eq k' k then (k', v) :: d' else (k', v') :: items_store k v d'
  end.

(** [d[k] = v] *)
Definition pydict_setitem (d : list (pyval * pyval)) (k v : pyval)
  : result (list (pyval * pyval)) :=
  if hashable k then Ok (items_store k v d) else Raise (TypeError "unhashable type").

(** [k in d] *)
Definition pydict_contains (d : list (pyval * pyval)) (k : pyval) : result bool :=
  if hashable k
  then Ok (match items_lookup k d with Some _ => true | None => false end)
  else Raise (TypeError "unhashable type").

(** [d[k]] *)
Definition pydict_getitem (d : list (pyval * pyval)) (k : pyval) : result pyval :=
  if hashable k
  then match items_lookup k d with
       | Some v => Ok v
       | None => Raise (KeyError "missing key")
       end
  else Raise (TypeError "unhashable type").

(** Run [f] on every element and concatenate what was shown. *)
Fixpoint show_each {A} (f : A -> result (list shown)) (l : list A) : result (list shown) :=
  match l with
  | [] => Ok []
  | x :: l' => here ← f x; more ← show_each f l'; Ok (here ++ more)
  end.

(** What the program asks of the platform besides [External]: the
    date [datetime.now().strftime('%Y-%m-%d')] gives, and what
    [str.strip] followed by [str.upper] makes of a line. *)
Class Platform : Type := {
  today : string;
  strip_upper : string -> string
}.

Section Application.
Context `{External} `{Platform}.

(** *** class UIManager *)

(** The branch of [display_insights] for one ticker element. *)
Definition display_ticker (ticker : pyval) : result (list shown) :=
  if isinstance_str ticker then Ok [ShownTicker ticker]
  else
    in_ticker ← (if isinstance_dict ticker then str_in "ticker" ticker else Ok false);
    if in_ticker : bool
    then value ← py_getitem ticker "ticker"; Ok [ShownTicker value]
    else Ok [].

(** The body of the loop of [display_insights] over the records. *)
Definition display_article (index : nat) (insight : pyval) : result (list shown) :=
  url ← py_getitem insight "url";
  points ← (insights ← py_getitem insight "insights"; py_iter insights);
  key_players ← py_getitem insight "key_players";
  players ← (if py_truthy key_players
             then key_players ← py_getitem insight "key_players"; py_iter key_players
             else Ok []);
  tickers ← py_getitem insight "tickers";
  listed ← (if py_truthy tickers
            then tickers ← py_getitem insight "tickers";
                 elements ← py_iter tickers;
                 show_each display_ticker elements
            else Ok []);
  Ok (ShownArticle index url :: map ShownInsight points ++ map ShownPlayer players ++ listed).

(** [for i, insight in enumerate(insights, 1)] *)
Fixpoint display_articles (insights : list pyval) (index : nat) : result (list shown) :=
  match insights with
  | [] => Ok []
  | insight :: rest =>
      here ← display_article index insight;
      more ← display_articles rest (S index);
      Ok (here ++ more)
  end.

Definition display_insights (insights key_players tickers : list pyval)
  : result (list shown) :=
  articles ← display_articles insights 1;
  Ok (articles ++ map SummaryPlayer key_players ++ map SummaryTicker tickers).

(** [display_menu] prints the menu and returns the line read. *)
Definition display_menu : M string := input_line.

(** *** class StockAnalyzer *)

(** The inner loop that fills [ticker_analyses]. *)
Fixpoint scan_ticker_items (items : list pyval) (ticker_analyses : list (pyval * pyval))
  : result (list (pyval * pyval)) :=
  match items with
  | [] => Ok ticker_analyses
  | ticker_item :: rest =>
      in_ticker ← (if isinstance_dict ticker_item
                   then str_in "ticker" ticker_item else Ok false);
      in_analysis ← (if in_ticker : bool then str_in "analysis" ticker_item else Ok false);
      if in_analysis : bool then
        ticker_symbol ← py_getitem ticker_item "ticker";
        analysis ← py_getitem ticker_item "analysis";
        ticker_analyses ← pydict_setitem ticker_analyses ticker_symbol analysis;
        scan_ticker_items rest ticker_analyses
      else scan_ticker_items rest ticker_analyses
  end.

(** The outer loop, over [all_insights]. *)
Fixpoint collect_analyses (insights : list pyval) (ticker_analyses : list (pyval * pyval))
  : result (list (pyval * pyval)) :=
  match insights with
  | [] => Ok ticker_analyses
  | insight :: rest =>
      tickers ← py_get insight "tickers" (PList []);
      items ← py_iter tickers;
      ticker_analyses ← scan_ticker_items items ticker_analyses;
      collect_analyses rest ticker_analyses
  end.

(** The loop over the tickers to price. *)
Fixpoint show_prices (ticker_analyses : list (pyval * pyval)) (tickers : list pyval)
  : M (list shown) :=
  match tickers with
  | [] => mret []
  | ticker :: rest =>
      if py_truthy ticker then
        stock_info ← get_stock_info_with_api ticker;
        known ← lift (pydict_contains ticker_analyses ticker);
        analysis ← lift (if known : bool
                         then a ← pydict_getitem ticker_analyses ticker; Ok [ShownAnalysis a]
                         else Ok []);
        more ← show_prices ticker_analyses rest;
        mret (ShownPrice ticker stock_info :: analysis ++ more)
      else show_prices ticker_analyses rest
  end.

Definition display_stock_prices (tickers : list pyval) : M (list shown) :=
  if negb (py_truthy (PList tickers)) then mret []
  else
    insights ← gets all_insights;
    ticker_analyses ← lift (collect_analyses insights []);
    prices ← show_prices ticker_analyses tickers;
    _ ← input_line;
    mret prices.

(** *** class NewsAnalyzer *)

Definition news_prompt (user_query : string) : string :=
  "The current date is " +:+ today
  +:+ ". All news found should be recent. Find the 3 top and most recent news stories about: "
  +:+ user_query
  +:+ ". Only give top 3, nothing else. Return it in JSON format with the title, description, and url. Don't even include the ```json``` tags.".

Definition find_news_stories (user_query : string) : M string :=
  response ← llm_create
    (mkRequest "gpt-4o" web_search_tools (InputText (news_prompt user_query)));
  mret (output_text response).

(** *** class BrainRotGenerator *)

Definition brain_rot_intro : string :=
  EmptyString
  +:+ newline +:+ "            Create a 'brain rot' style explanation about the following investment information."
  +:+ newline +:+ "            It should be:"
  +:+ newline +:+ "            1. Super casual, using slang and internet speak"
  +:+ newline +:+ "            2. Simplified to the extreme"
  +:+ newline +:+ "            3. Entertaining and slightly absurd"
  +:+ newline +:+ "            4. Around 150-200 words maximum"
  +:+ newline +:+ "            5. Include emojis"
  +:+ newline +:+ "            6. Mention the key players: ".

Definition brain_rot_before_tickers : string :=
  EmptyString
  +:+ newline +:+ "            7. Mention the stock tickers: ".

Definition brain_rot_before_insights : string :=
  EmptyString
  +:+ newline +:+ "            8. Include some of these insights: ".

Definition brain_rot_lexicon : string :=
  EmptyString
  +:+ newline +:+ EmptyString
  +:+ newline +:+ EmptyString
  +:+ newline +:+ "            Here are a list of brainrot terms: skibidi gyatt rizz only in ohio duke dennis did you pray today livvy dunne rizzing up baby gronk sussy imposter pibby glitch in real life sigma alpha omega male grindset andrew tate goon cave freddy fazbear colleen ballinger smurf cat vs strawberry elephant blud dawg shmlawg ishowspeed a whole bunch of turbulence ambatukam bro really thinks he's carti literally hitting the griddy the ocky way kai cenat fanum tax garten of banban no edging in class not the mosquito again bussing axel in harlem whopper whopper whopper whopper 1 2 buckle my shoe goofy ahh aiden ross sin city monday left me broken quirked up white boy busting it down sexual style goated with the sauce john pork grimace shake kiki do you love me huggy wuggy nathaniel b lightskin stare biggest bird omar the referee amogus uncanny wholesome reddit chungus keanu reeves pizza tower zesty poggers kumalala savesta quandale dingle glizzy rose toy ankha zone thug shaker morbin time dj khaled sisyphus oceangate shadow wizard money gang ayo the pizza here PLUH nair butthole waxing t-pose ugandan knuckles family guy funny moments compilation with subway surfers gameplay at the bottom nickeh30 ratio uwu delulu opium bird cg5 mewing fortnite battle pass all my fellas gta 6 backrooms gigachad based cringe kino redpilled no nut november pokénut november foot fetish F in the chat i love lean looksmaxxing gassy social credit bing chilling xbox live mrbeast kid named finger better caul saul i am a surgeon hit or miss i guess they never miss huh i like ya cut g ice spice gooning fr we go gym kevin james josh hutcherson coffin of andy and leyley metal pipe falling"
  +:+ newline +:+ "            "
  +:+ newline +:+ "            The explanation should sound like a TikTok voiceover that would play over Subway Surfers gameplay."
  +:+ newline +:+ "            ".

(** The loop that flattens the insights of all records. *)
Fixpoint summarize (insights : list pyval) (insight_summary : list pyval)
  : result (list pyval) :=
  match insights with
  | [] => Ok insight_summary
  | insight :: rest =>
      points ← (field ← py_get insight "insights" (PList []); py_iter field);
      summarize rest (insight_summary ++ points)
  end.

(** The f-string of the request; the joins are evaluated first, in the
    order of the text. *)
Definition brain_rot_prompt (key_players tickers insight_summary : list pyval)
  : result string :=
  players ← py_join ", " key_players;
  ticker_text ← py_join ", " tickers;
  Ok (brain_rot_intro +:+ players
      +:+ brain_rot_before_tickers +:+ ticker_text
      +:+ brain_rot_before_insights +:+ py_str (PList (take 3 insight_summary))
      +:+ brain_rot_lexicon).

(** The request is sent without tools; [PNone] in [tools] stands for
    the argument not being given. *)
Definition generate_brain_rot_explanation : M string :=
  insights ← gets all_insights;
  insight_summary ← lift (summarize insights []);
  ticker_list ← gets all_tickers;
  key_players ← gets all_key_players;
  prompt ← lift (brain_rot_prompt key_players ticker_list insight_summary);
  response ← llm_create (mkRequest "gpt-4o" PNone (InputText prompt));
  mret (output_text response).

(** [os.path.exists] is read off the files of the state. *)
Definition path_exists (path : string) (w : World) : bool :=
  match files w !! path with Some _ => true | None => false end.

Definition get_subway_surfers_video : M string := fun w =>
  if path_exists "subway_surfers.mp4" w then (Ok "subway_surfers.mp4", w)
  else if path_exists "subway_surfers.mp4.mp4" w then (Ok "subway_surfers.mp4.mp4", w)
  else (Ok "subway_surfers.mp4", w).

(** *** class InvestmentApp *)

(** [choice.lower() == 'y']: the only strings whose lower case is [y]
    are [y] and [Y]. *)
Definition is_yes (choice : string) : bool :=
  String.eqb choice "y" || String.eqb choice "Y".

(** What [do_research] displays is not kept. *)
Definition do_research : M unit :=
  user_query ← input_line;
  if negb (py_truthy (PStr user_query)) then mret tt
  else
    findings ← find_news_stories user_query;
    try_except_M
      (news_data ← lift (loads findings);
       found ← process_news_data news_data;
       if found : bool then
         insights ← gets all_insights;
         key_players ← gets all_key_players;
         tickers ← gets all_tickers;
         _ ← lift (display_insights insights key_players tickers);
         choice ← input_line;
         if is_yes choice then
           tickers ← gets all_tickers;
           _ ← display_stock_prices tickers;
           mret tt
         else mret tt
       else mret tt)
      (fun e => if is_JSONDecodeError e then mret tt else lift (Raise e)).

Definition lookup_stock : M unit :=
  line ← input_line;
  let ticker := strip_upper line in
  if negb (py_truthy (PStr ticker)) then mret tt
  else
    _ ← get_stock_info_with_api (PStr ticker);
    _ ← input_line;
    mret tt.

End Application.

(** ** Specification-level definitions *)

(** What a ticker element contributes to the aggregate: a bare string
    contributes itself, a dict its [symbol] field or else its [ticker]
    field, any other shape nothing. *)
Definition normalize_ticker (t : pyval) : option pyval :=
  match t with
  | PStr _ => Some t
  | PDict d =>
      match dict_lookup "symbol" d with
      | Some v => Some v
      | None => dict_lookup "ticker" d
      end
  | _ => None
  end.

(** The first occurrence of every value of [l], in the order of [l]:
    the head is kept and everything equal to it is dropped from the
    rest. *)
Equations? first_seen (l : list pyval) : list pyval by wf (length l) lt :=
  first_seen [] := [];
  first_seen (x :: l') := x :: first_seen (List.filter (fun y => negb (py_eq x y)) l').
Proof.
  pose proof (List.filter_length_le (fun y => negb (py_eq x y)) l'). simpl. lia.
Qed.

(** Append [x] unless an equal item is there. *)
Definition add_new (agg : list pyval) (x : pyval) : list pyval :=
  if list_contains x agg then agg else agg ++ [x].

(** Field [k] of an insight record, and the elements a loop over a
    field visits. *)
Definition record_field (k : string) (r : pyval) : pyval :=
  match r with
  | PDict d => default (PList []) (dict_lookup k d)
  | _ => PList []
  end.

Definition elements (v : pyval) : list pyval :=
  match py_iter v with Ok l => l | Raise _ => [] end.

Definition players_of (records : list pyval) : list pyval :=
  flat_map (fun r => elements (record_field "key_players" r)) records.

Definition ticker_elements_of (records : list pyval) : list pyval :=
  flat_map (fun r => elements (record_field "tickers" r)) records.

Definition ticker_symbols_of (records : list pyval) : list pyval :=
  omap normalize_ticker (ticker_elements_of records).

Arguments players_of : simpl never.
Arguments ticker_symbols_of : simpl never.

(** No two entries, at different positions, are equal under [==]. *)
Definition pairwise_distinct (l : list pyval) : Prop :=
  forall i j x y, (i < j)%nat -> l !! i = Some x -> l !! j = Some y -> py_eq x y = false.

Definition add_new_opt (agg : list pyval) (o : option pyval) : list pyval :=
  match o with Some v => add_new agg v | None => agg end.

Section Specification.
Context `{External}.

(** What [extract_insights_from_url] returns for [url] when its request
    is the [n]-th LLM call of the run. *)
Definition extraction (n : nat) (url : pyval) : result pyval :=
  response ← responses_create n
    (mkRequest "gpt-4o" web_search_tools (InputText (extract_prompt url)));
  try_except (loads (output_text response))
    (fun e => if is_JSONDecodeError e then Ok empty_record else Raise e).

(** [r] is the insight record stored for [url] from the extraction made
    by the [n]-th LLM call. *)
Definition is_record_of (n : nat) (url r : pyval) : Prop :=
  exists result,
    extraction n url = Ok result
    /\ r = insight_record url (record_field "insights" result)
             (record_field "key_players" result) (record_field "tickers" result).

(** [rs] are the records of [urls], extracted by consecutive calls
    starting with the [n]-th. *)
Fixpoint records_of (n : nat) (urls rs : list pyval) : Prop :=
  match urls, rs with
  | [], [] => True
  | url :: urls', r :: rs' => is_record_of n url r /\ records_of (S n) urls' rs'
  | _, _ => False
  end.

(** An extraction result the second loop can fold: an object whose
    [key_players] and [tickers] fields, when present, can be iterated. *)
Definition usable_result (result : pyval) : Prop :=
  exists d players elems,
    result = PDict d
    /\ py_iter (record_field "key_players" result) = Ok players
    /\ py_iter (record_field "tickers" result) = Ok elems.

(** The relation between the aggregates and the stored records that
    every completed research action establishes. *)
Definition session_invariant (w : World) : Prop :=
  all_key_players w = first_seen (players_of (all_insights w))
  /\ all_tickers w = first_seen (ticker_symbols_of (all_insights w)).

(** The states of a session: [Config] starts with empty aggregates;
    a research action that completes leads to a new state; everything
    else the program does leaves the three aggregates alone. *)
Inductive reachable : World -> Prop :=
| reach_start n lines fs : reachable (mkWorld [] [] [] n lines fs)
| reach_research news_data w b w' :
    reachable w -> process_news_data news_data w = (Ok b, w') -> reachable w'
| reach_other w w' :
    reachable w ->
    all_insights w' = all_insights w ->
    all_key_players w' = all_key_players w ->
    all_tickers w' = all_tickers w ->
    reachable w'.

(** A voice of the catalogue: a dict with a name and a voice_id. *)
Definition well_formed_voice (voice : pyval) : Prop :=
  exists d name voice_id,
    voice = PDict d /\ dict_lookup "name" d = Some name
    /\ dict_lookup "voice_id" d = Some voice_id.

Definition tts_url (voice_id : pyval) : string :=
  "https://api.elevenlabs.io/v1/text-to-speech/" +:+ py_str voice_id.

Definition tts_headers : list (string * string) :=
  [("Accept", "audio/mpeg"); ("Content-Type", "application/json");
   ("xi-api-key", format_env (environ "ELEVEN_LABS_API_KEY"))].

Definition quote_url (ticker_symbol : pyval) : string :=
  "https://www.alphavantage.co/query?function=GLOBAL_QUOTE&symbol="
  +:+ py_str ticker_symbol +:+ "&apikey=" +:+ format_env (environ "ALPHA_VANTAGE_API_KEY").

(** The value of the price field of the quote response for
    [ticker_symbol], when the response body parses to an object that
    holds a [Global Quote] object with a [05. price] field. *)
Definition quoted_price (ticker_symbol : pyval) : option pyval :=
  match requests_get (quote_url ticker_symbol) [] with
  | Ok response =>
      match json_loads (content response) with
      | Some (PDict data) =>
          match dict_lookup "Global Quote" data with
          | Some (PDict quote) => dict_lookup "05. price" quote
          | _ => None
          end
      | _ => None
      end
  | Raise _ => None
  end.

Definition could_not_retrieve (ticker_symbol : pyval) : string :=
  "Could not retrieve price for " +:+ py_str ticker_symbol.

Definition error_message (e : exn) : string := "Error: " +:+ exn_str e.

End Specification.

(** ** Concrete runs

    Instances of the outside world that answer from fixed tables, used
    to run the program on examples. *)

Module Scenario.

Fixpoint assoc {A} (table : list (string * A)) (k : string) : option A :=
  match table with
  | [] => None
  | (k', v) :: table' => if String.eqb k k' then Some v else assoc table' k
  end.

(** A parser of unsigned decimal numerals. *)
Fixpoint digits (acc : Z) (s : string) : option Z :=
  match s with
  | EmptyString => Some acc
  | String c s' =>
      let n := Z.of_nat (nat_of_ascii c) in
      if Z.leb 48 n && Z.leb n 57 then digits (10 * acc + (n - 48)) s' else None
  end.

Definition parse_int (s : string) : option Z :=
  match s with
  | EmptyString => None
  | _ => digits 0 s
  end.

Definition exn_name (e : exn) : string :=
  match e with
  | TypeError _ => "TypeError"
  | KeyError _ => "KeyError"
  | AttributeError _ => "AttributeError"
  | ValueError => "ValueError"
  | JSONDecodeError => "Expecting value"
  | EOFError => "EOFError"
  | IndexError => "IndexError"
  | RecursionError => "maximum recursion depth exceeded"
  | OSError _ => "OSError"
  | RequestError detail => detail
  end.

(** The world in which texts parse according to [json], every other
    text makes the parser raise [JSONDecodeError], the
    environment is [env], every GET is answered by [get], every POST by
    [post], the [n]-th LLM call by the [n]-th element of [replies], and
    every file can be opened. *)
Definition world_of (json : list (string * pyval)) (env : list (string * string))
    (get post : result response) (replies : list llm_response) : External :=
  {| json_loads := assoc json;
     loads_error := fun _ => JSONDecodeError;
     py_int := parse_int;
     py_repr := fun _ => "<container>";
     exn_str := exn_name;
     environ := assoc env;
     requests_get := fun _ _ => get;
     requests_post := fun _ _ _ => post;
     responses_create := fun n _ =>
       match replies !! n with
       | Some r => Ok r
       | None => Raise (RequestError "connection refused")
       end;
     open_error := fun _ => None |}.

Definition offline : result response := Raise (RequestError "connection refused").

Definition start (lines : list string) : World := mkWorld [] [] [] 0 lines ∅.

(** Two articles; the extraction of the first parses, with a ticker as
    a bare string, one as a dict with both keys and a repeated one; the
    extraction of the second names a player and a ticker again. *)
Definition news : pyval :=
  PList [ PDict [("title", PStr "Chips"); ("url", PStr "https://a.example/1")];
          PDict [("title", PStr "No link")];
          PDict [("title", PStr "Cars"); ("description", PStr "EV makers");
                 ("url", PStr "https://a.example/2")] ].

Definition record1 : pyval :=
  PDict [("insights", PList [PStr "Demand is up"]);
         ("key_players", PList [PStr "Nvidia"; PStr "nvidia"; PStr "Nvidia"]);
         ("tickers", PList [PStr "NVDA";
                            PDict [("symbol", PStr "AMD"); ("ticker", PStr "Advanced Micro")];
                            PStr "NVDA"; PInt 7])].

Definition record2 : pyval :=
  PDict [("insights", PList [PStr "Prices fall"]);
         ("key_players", PList [PStr "Tesla"; PStr "Nvidia"]);
         ("tickers", PList [PDict [("ticker", PStr "TSLA")]; PDict [("symbol", PStr "NVDA")]])].

Definition research : External :=
  world_of [("reply-1", record1); ("reply-2", record2)] [] offline offline
    [mkLLMResponse [] "reply-1"; mkLLMResponse [] "reply-2"].


(** [E] with a parser that raises [e] on [text]. *)
Definition failing_on (text : string) (e : exn) (E : External) : External :=
  {| json_loads := @json_loads E;
     loads_error := fun s => if String.eqb s text then e else @loads_error E s;
     py_int := @py_int E;
     py_repr := @py_repr E;
     exn_str := @exn_str E;
     environ := @environ E;
     requests_get := @requests_get E;
     requests_post := @requests_post E;
     responses_create := @responses_create E;
     open_error := @open_error E |}.


Definition nested : string := Nat.iter 1000 (String "["%char) EmptyString.


(** The quote service answers with the price as a string, as a number,
    or without a quote. *)
Definition quote_body (price : pyval) : pyval :=
  PDict [("Global Quote", PDict [("01. symbol", PStr "AAPL"); ("05. price", price)])].

Definition quoting (price : pyval) (replies : list llm_response) : External :=
  world_of [("quote", quote_body price);
            ("arguments", PDict [("ticker_symbol", PStr "AAPL")])]
    [("ALPHA_VANTAGE_API_KEY", "demo")] (Ok (mkResponse 200 "quote")) offline replies.

Definition no_quote : External :=
  world_of [("limit", PDict [("Note", PStr "rate limit reached")])] []
    (Ok (mkResponse 200 "limit")) offline [].

Definition not_json : External :=
  world_of [] [] (Ok (mkResponse 200 "<html>")) offline [].

Definition unreachable : External := world_of [] [] offline offline [].

Definition stock_call : output_item :=
  mkItem "function_call" "get_stock_info" "arguments" "call_1".

Definition tool_replies : list llm_response :=
  [ mkLLMResponse [mkItem "reasoning" EmptyString EmptyString EmptyString; stock_call] EmptyString;
    mkLLMResponse [mkItem "message" EmptyString EmptyString EmptyString] "AAPL trades at 187.50." ].

Definition direct_replies : list llm_response :=
  [ mkLLMResponse [mkItem "message" EmptyString EmptyString EmptyString] "I cannot look that up." ].

(** The voice catalogue has two voices; the synthesis request is
    answered by [post]. *)
Definition rachel : pyval := PDict [("name", PStr "Rachel"); ("voice_id", PStr "21m00Tcm4TlvDq8ikWAM")].
Definition adam : pyval := PDict [("name", PStr "Adam"); ("voice_id", PStr "pNInz6obpgDQGcFmaJgB")].

Definition studio (post : result response) : External :=
  world_of [("catalogue", PDict [("voices", PList [rachel; adam])])]
    [("ELEVEN_LABS_API_KEY", "secret")] (Ok (mkResponse 200 "catalogue")) post [].

End Scenario.

(** ** Definitions for the properties of the rest of the program *)

(** The URL an article contributes to the second loop of
    [process_news_data]: the [url] item of a dict. *)
Definition article_url (article : pyval) : option pyval :=
  match article with
  | PDict d => dict_lookup "url" d
  | _ => None
  end.


Definition voices_url : string := "https://api.elevenlabs.io/v1/voices".

Definition voices_headers `{External} : list (string * string) :=
  [("Accept", "application/json");
   ("xi-api-key", format_env (environ "ELEVEN_LABS_API_KEY"))].

Definition is_string (v : pyval) : Prop := isinstance_str v = true.

(** What [display_insights] lists for a ticker element: a string
    itself, the [ticker] item of a dict. *)
Definition listed_ticker (t : pyval) : option pyval :=
  match t with
  | PStr _ => Some t
  | PDict d => dict_lookup "ticker" d
  | _ => None
  end.

(** A record as [process_news_data] stores it, with fields the
    aggregation loops could iterate. *)
Definition stored_record (r : pyval) : Prop :=
  exists url insights key_players tickers players elems,
    r = insight_record url insights key_players tickers
    /\ py_iter key_players = Ok players
    /\ py_iter tickers = Ok elems.

Definition iterable (v : pyval) : Prop := exists l, py_iter v = Ok l.

(** The ticker of a price line. *)
Definition priced_ticker (line : shown) : option pyval :=
  match line with
  | ShownPrice ticker _ => Some ticker
  | _ => None
  end.

(** The lines [display_insights] prints for one record, and for a list
    of records numbered from [index]. *)
Definition article_lines (index : nat) (r : pyval) : list shown :=
  ShownArticle index (record_field "url" r)
  :: map ShownInsight (elements (record_field "insights" r))
  ++ map ShownPlayer (elements (record_field "key_players" r))
  ++ map ShownTicker (omap listed_ticker (elements (record_field "tickers" r))).

Fixpoint articles_lines (rs : list pyval) (index : nat) : list shown :=
  match rs with
  | [] => []
  | r :: rs' => article_lines index r ++ articles_lines rs' (S index)
  end.

(** The request [find_news_stories] sends for a query. *)
Definition news_request `{Platform} (user_query : string) : llm_request :=
  mkRequest "gpt-4o" web_search_tools (InputText (news_prompt user_query)).

(** ** More concrete runs *)

Module Cases.
Import Scenario.

(** [E] with a file system on which no file can be opened for
    writing. *)
Definition read_only (E : External) : External :=
  {| json_loads := @json_loads E;
     loads_error := @loads_error E;
     py_int := @py_int E;
     py_repr := @py_repr E;
     exn_str := @exn_str E;
     environ := @environ E;
     requests_get := @requests_get E;
     requests_post := @requests_post E;
     responses_create := @responses_create E;
     open_error := fun path => Some (OSError path) |}.

Definition desk : Platform :=
  {| today := "2025-03-14"; strip_upper := fun line => line |}.

(** The state a previous research action left. *)
Definition previous : World :=
  mkWorld [insight_record (PStr "https://a.example/0") (PList [PStr "Rates rise"])
             (PList [PStr "Fed"]) (PList [PStr "SPY"])]
    [PStr "Fed"] [PStr "SPY"] 0 [] ∅.

Definition linked : pyval :=
  PDict [("title", PStr "Chips"); ("url", PStr "https://a.example/1")].

Definition untitled : list (string * pyval) := [("url", PStr "https://a.example/2")].

(** The extraction is answered by a JSON list, by an object whose key
    players are null, or not at all. *)
Definition answers_list : External :=
  world_of [("reply", PList [PStr "NVDA"])] [] offline offline
    [mkLLMResponse [] "reply"].

Definition null_players : pyval :=
  PDict [("insights", PList []); ("key_players", PNone); ("tickers", PList [PStr "NVDA"])].

Definition answers_null_players : External :=
  world_of [("reply", null_players)] [] offline offline
    [mkLLMResponse [] "reply"].

(** The function call carries arguments that do not parse, or that
    parse to a list. *)
Definition garbled_arguments : External :=
  world_of [] [] offline offline tool_replies.

Definition list_arguments : External :=
  world_of [("arguments", PList [PStr "AAPL"])] [] offline offline tool_replies.

(** A catalogue whose second voice has no name. *)
Definition nameless : list (string * pyval) := [("voice_id", PStr "pNInz6obpgDQGcFmaJgB")].

Definition broken_studio : External :=
  world_of [("catalogue", PDict [("voices", PList [rachel; PDict nameless])])]
    [("ELEVEN_LABS_API_KEY", "secret")] (Ok (mkResponse 200 "catalogue")) offline [].

Definition empty_catalogue : External :=
  world_of [("catalogue", PDict [("count", PInt 0)])]
    [("ELEVEN_LABS_API_KEY", "secret")] (Ok (mkResponse 200 "catalogue")) offline [].

(** A research action with three answers from the LLM, the third for
    the narration. *)
Definition narrated : External :=
  world_of [("reply-1", record1); ("reply-2", record2)] [] offline offline
    [mkLLMResponse [] "reply-1"; mkLLMResponse [] "reply-2"; mkLLMResponse [] "no cap fr"].



(** A record whose insights are a number. *)
Definition record_number : pyval :=
  PDict [("insights", PInt 3); ("key_players", PList []); ("tickers", PList [])].

Definition numbers : External :=
  world_of [("reply-1", record_number)] [] offline offline [mkLLMResponse [] "reply-1"].

(** A record whose key players are objects. *)
Definition record_objects : pyval :=
  PDict [("insights", PList [PStr "Demand is up"]);
         ("key_players", PList [PDict [("name", PStr "Nvidia")]]);
         ("tickers", PList [PDict [("symbol", PStr "NVDA"); ("analysis", PStr "up")];
                            PDict [("ticker", PStr "TSLA"); ("analysis", PStr "down")]])].

Definition objects : External :=
  world_of [("reply-1", record_objects)] [] offline offline [mkLLMResponse [] "reply-1"].

(** A session with two tickers to price, the second with an
    analysis; the LLM answers every lookup directly. *)
Definition priced : World :=
  mkWorld [insight_record (PStr "https://a.example/1") (PList [])
             (PList [])
             (PList [PDict [("symbol", PStr "NVDA"); ("analysis", PStr "up")];
                     PDict [("ticker", PStr "TSLA"); ("analysis", PStr "down")]])]
    [] [PStr "NVDA"; PStr EmptyString; PStr "TSLA"] 0 ["go on"] ∅.

Definition pricing : External :=
  world_of [] [] offline offline
    [mkLLMResponse [] "NVDA is at 120."; mkLLMResponse [] "TSLA is at 250."].

(** The news request is answered with text that is not JSON, with a
    list of articles without URL, or with an article without title. *)
Definition news_of (body : pyval) : External :=
  world_of [("news", body)] [] offline offline [mkLLMResponse [] "news"].

Definition chatty : External :=
  world_of [] [] offline offline [mkLLMResponse [] "Here are the top stories."].

(** The news request is answered by a thousand opening brackets. *)
Definition deep : External :=
  failing_on nested RecursionError
    (world_of [] [] offline offline [mkLLMResponse [] nested]).

(** A whole research action: the news, two extractions, and a price
    lookup answered by a function call whose arguments do not parse. *)
Definition newsroom : External :=
  world_of [("news", news); ("reply-1", record1); ("reply-2", record2)] [] offline offline
    [mkLLMResponse [] "news"; mkLLMResponse [] "reply-1"; mkLLMResponse [] "reply-2";
     mkLLMResponse [stock_call] EmptyString].

End Cases.

Ltac run :=
  unfold mbind, M_bind, mret, M_ret, lift, gets, modify; simpl.

(** ** Properties of [first_seen] *)

Lemma list_contains_app x l1 l2 :
  list_contains x (l1 ++ l2) = list_contains x l1 || list_contains x l2.
Proof. unfold list_contains. apply existsb_app. Qed.

Lemma filter_filter_contains x agg l :
  List.filter (fun y => negb (list_contains y (agg ++ [x]))) l
  = List.filter (fun y => negb (py_eq x y))
      (List.filter (fun y => negb (list_contains y agg)) l).
Proof.
  induction l as [|y l IH]; simpl; [reflexivity|].
  rewrite list_contains_app. simpl.
  destruct (list_contains y agg); simpl; [exact IH|].
  rewrite orb_false_r. destruct (py_eq x y); simpl; [exact IH|].
  f_equal. exact IH.
Qed.

(** The loop that appends unseen values computes [first_seen]. *)
Lemma fold_add_new l : forall agg,
  fold_left add_new l agg
  = agg ++ first_seen (List.filter (fun y => negb (list_contains y agg)) l).
Proof.
  induction l as [|x l IH]; intros agg; simpl.
  - simp first_seen. now rewrite app_nil_r.
  - unfold add_new at 2. destruct (list_contains x agg) eqn:Hx; simpl.
    + apply IH.
    + rewrite IH. simp first_seen. rewrite <- app_assoc. simpl.
      now rewrite filter_filter_contains.
Qed.

Lemma fold_add_new_nil l : fold_left add_new l [] = first_seen l.
Proof.
  rewrite fold_add_new. simpl. f_equal.
  induction l as [|x l IH]; simpl; [reflexivity|]. now rewrite IH.
Qed.

Lemma first_seen_In l : forall y, In y (first_seen l) -> In y l.
Proof.
  funelim (first_seen l); intros y Hy; [exact Hy|].
  destruct Hy as [->|Hy]; [now left|].
  right. apply H in Hy. apply List.filter_In in Hy. tauto.
Qed.

Lemma first_seen_head_distinct x l y :
  In y (first_seen (List.filter (fun y => negb (py_eq x y)) l)) -> py_eq x y = false.
Proof.
  intros Hy. apply first_seen_In, List.filter_In in Hy.
  destruct Hy as [_ Hy]. now apply negb_true_iff in Hy.
Qed.

Lemma first_seen_distinct l : pairwise_distinct (first_seen l).
Proof.
  funelim (first_seen l); intros i j a b Hij Ha Hb.
  - now rewrite lookup_nil in Ha.
  - destruct j as [|j]; [lia|]. simpl in Hb.
    destruct i as [|i]; simpl in Ha.
    + injection Ha as <-. eapply first_seen_head_distinct.
      apply list_elem_of_In. eapply list_elem_of_lookup_2. exact Hb.
    + eapply (H i j); [lia|exact Ha|exact Hb].
Qed.

Lemma first_seen_covers l : forall y,
  In y l -> exists e, In e (first_seen l) /\ (e = y \/ py_eq e y = true).
Proof.
  funelim (first_seen l); intros y Hy; [destruct Hy|].
  destruct Hy as [->|Hy].
  - exists y. split; [now left|now left].
  - destruct (py_eq x y) eqn:Hxy.
    + exists x. split; [now left|now right].
    + destruct (H y) as (e & He & Hey).
      * apply List.filter_In. split; [exact Hy|]. now rewrite Hxy.
      * exists e. split; [now right|exact Hey].
Qed.

Lemma filter_sublist (f : pyval -> bool) l : List.filter f l `sublist_of` l.
Proof.
  induction l as [|x l IH]; simpl; [constructor|].
  destruct (f x); now constructor.
Qed.

Lemma first_seen_sublist l : first_seen l `sublist_of` l.
Proof.
  funelim (first_seen l); [constructor|].
  constructor. etransitivity; [exact H|apply filter_sublist].
Qed.

(** On strings [==] is string equality, and a string equals nothing
    else. *)
Lemma py_eq_str_refl s : py_eq (PStr s) (PStr s) = true.
Proof. simpl. apply String.eqb_refl. Qed.

Lemma py_eq_str_l s v : py_eq (PStr s) v = true -> v = PStr s.
Proof.
  destruct v; simpl; try discriminate.
  intros Heq. apply String.eqb_eq in Heq. now subst.
Qed.

Lemma py_eq_str_r s v : py_eq v (PStr s) = true -> v = PStr s.
Proof.
  destruct v; simpl; try discriminate.
  intros Heq. apply String.eqb_eq in Heq. now subst.
Qed.

Lemma pairwise_distinct_str l i j s :
  pairwise_distinct l -> l !! i = Some (PStr s) -> l !! j = Some (PStr s) -> i = j.
Proof.
  intros Hd Hi Hj.
  destruct (Nat.lt_trichotomy i j) as [Hlt|[Heq|Hlt]]; [|exact Heq|].
  - pose proof (Hd i j _ _ Hlt Hi Hj) as Hne. now rewrite py_eq_str_refl in Hne.
  - pose proof (Hd j i _ _ Hlt Hj Hi) as Hne. now rewrite py_eq_str_refl in Hne.
Qed.

(** A string that occurs in [l] has exactly one entry in
    [first_seen l]. *)
Lemma first_seen_str_once l s :
  In (PStr s) l ->
  exists i, first_seen l !! i = Some (PStr s)
            /\ forall j, first_seen l !! j = Some (PStr s) -> j = i.
Proof.
  intros Hin. destruct (first_seen_covers l _ Hin) as (e & He & Hes).
  assert (e = PStr s) as -> by (destruct Hes as [->|Hes]; [reflexivity|now apply py_eq_str_r]).
  apply list_elem_of_In, list_elem_of_lookup in He. destruct He as [i Hi].
  exists i. split; [exact Hi|].
  intros j Hj. eapply pairwise_distinct_str; eauto using first_seen_distinct.
Qed.

Lemma first_seen_str_iff l s : In (PStr s) (first_seen l) <-> In (PStr s) l.
Proof.
  split; [apply first_seen_In|].
  intros Hin. destruct (first_seen_str_once l s Hin) as (i & Hi & _).
  apply list_elem_of_In. eapply list_elem_of_lookup_2. exact Hi.
Qed.

(** ** The state after the aggregation loops *)

Lemma set_all_key_players_id w : set_all_key_players (all_key_players w) w = w.
Proof. now destruct w. Qed.

Lemma set_all_tickers_id w : set_all_tickers (all_tickers w) w = w.
Proof. now destruct w. Qed.

Section Aggregation.
Context `{External}.

Lemma add_player_spec player w :
  add_player player w
  = (Ok tt, set_all_key_players (add_new (all_key_players w) player) w).
Proof.
  unfold add_player, add_new. run.
  destruct (list_contains player (all_key_players w)); simpl; [|reflexivity].
  now rewrite set_all_key_players_id.
Qed.

Lemma for_each_add_player players : forall w,
  for_each add_player players w
  = (Ok tt, set_all_key_players (fold_left add_new players (all_key_players w)) w).
Proof.
  induction players as [|p players IH]; intros w; simpl.
  - run. now rewrite set_all_key_players_id.
  - unfold mbind, M_bind. rewrite add_player_spec, IH. reflexivity.
Qed.

Lemma add_ticker_spec ticker w :
  add_ticker ticker w
  = (Ok tt, set_all_tickers (add_new_opt (all_tickers w) (normalize_ticker ticker)) w).
Proof.
  unfold add_ticker, add_new_opt, add_new. run.
  destruct ticker as [| | |s|l|d]; simpl; try now rewrite set_all_tickers_id.
  - destruct (list_contains (PStr s) (all_tickers w)); simpl; [|reflexivity].
    now rewrite set_all_tickers_id.
  - unfold dict_has.
    destruct (dict_lookup "symbol" d) as [symbol|]; simpl.
    + destruct (list_contains symbol (all_tickers w)); simpl; [|reflexivity].
      now rewrite set_all_tickers_id.
    + destruct (dict_lookup "ticker" d) as [ticker_symbol|]; simpl.
      * destruct (list_contains ticker_symbol (all_tickers w)); simpl; [|reflexivity].
        now rewrite set_all_tickers_id.
      * now rewrite set_all_tickers_id.
Qed.

Lemma for_each_add_ticker elements : forall w,
  for_each add_ticker elements w
  = (Ok tt, set_all_tickers
              (fold_left add_new (omap normalize_ticker elements) (all_tickers w)) w).
Proof.
  induction elements as [|t elements IH]; intros w; simpl.
  - run. now rewrite set_all_tickers_id.
  - unfold mbind, M_bind. rewrite add_ticker_spec, IH. simpl.
    destruct (normalize_ticker t); reflexivity.
Qed.

End Aggregation.

(** ** One research action *)

Section Research.
Context `{External}.

Lemma extract_insights_from_url_run url index w :
  extract_insights_from_url url index w
  = (extraction (llm_calls w) url, set_llm_calls (S (llm_calls w)) w).
Proof.
  unfold extract_insights_from_url, extraction, llm_create. run.
  destruct (responses_create _ _); reflexivity.
Qed.

Lemma py_get_record_field result k v :
  py_get result k (PList []) = Ok v -> v = record_field k result.
Proof. destruct result; simpl; congruence. Qed.

(** The state after the loop body for one URL, when it completes. *)
Lemma analyze_article_ok url index w w' :
  analyze_article url index w = (Ok tt, w') ->
  exists r,
    is_record_of (llm_calls w) url r
    /\ w' = set_all_tickers
              (fold_left add_new (ticker_symbols_of [r]) (all_tickers w))
              (set_all_key_players
                 (fold_left add_new (players_of [r]) (all_key_players w))
                 (set_all_insights (all_insights w ++ [r])
                    (set_llm_calls (S (llm_calls w)) w))).
Proof.
  unfold analyze_article. unfold mbind at 1, M_bind at 1.
  rewrite extract_insights_from_url_run.
  destruct (extraction (llm_calls w) url) as [result|e] eqn:Hext; [|discriminate].
  destruct result as [| | | | |d]; try discriminate.
  run.
  set (kp := default (PList []) (dict_lookup "key_players" d)).
  set (tk := default (PList []) (dict_lookup "tickers" d)).
  destruct (py_iter kp) as [players|e] eqn:Hkp; [|discriminate].
  rewrite for_each_add_player. simpl.
  destruct (py_iter tk) as [elems|e] eqn:Htk; [|discriminate].
  rewrite for_each_add_ticker. simpl.
  intros [= <-].
  eexists. split; [exists (PDict d); split; [exact Hext|reflexivity]|].
  unfold ticker_symbols_of, ticker_elements_of, players_of, elements. simpl.
  fold kp tk. rewrite Hkp, Htk, !app_nil_r. reflexivity.
Qed.

Lemma players_of_cons r rs : players_of (r :: rs) = players_of [r] ++ players_of rs.
Proof. unfold players_of. simpl. now rewrite app_nil_r. Qed.

Lemma ticker_symbols_of_cons r rs :
  ticker_symbols_of (r :: rs) = ticker_symbols_of [r] ++ ticker_symbols_of rs.
Proof.
  unfold ticker_symbols_of, ticker_elements_of. simpl.
  now rewrite app_nil_r, omap_app.
Qed.

(** The state after the second loop, when it completes. *)
Lemma analyze_articles_ok urls : forall index w w',
  analyze_articles urls index w = (Ok tt, w') ->
  exists rs,
    records_of (llm_calls w) urls rs
    /\ all_insights w' = all_insights w ++ rs
    /\ all_key_players w' = fold_left add_new (players_of rs) (all_key_players w)
    /\ all_tickers w' = fold_left add_new (ticker_symbols_of rs) (all_tickers w)
    /\ stdin w' = stdin w /\ files w' = files w.
Proof.
  induction urls as [|url rest IH]; intros index w w'; simpl.
  - intros [= <-]. exists []. simpl. now rewrite app_nil_r.
  - unfold mbind, M_bind.
    destruct (analyze_article url index w) as [[[]|e] w1] eqn:Hone; [|discriminate].
    apply analyze_article_ok in Hone as (r & Hr & ->).
    intros Hrest. apply IH in Hrest as (rs & Hrs & Hins & Hkp & Htk & Hin & Hfs).
    exists (r :: rs). simpl in *.
    rewrite players_of_cons, ticker_symbols_of_cons, !fold_left_app.
    rewrite Hins, <- app_assoc. simpl. auto 10.
Qed.

(** A call that returns [True] has reset the aggregates and rebuilt
    them from the records it stored. *)
Lemma process_news_data_true news_data w w' :
  process_news_data news_data w = (Ok true, w') ->
  exists articles urls,
    py_iter news_data = Ok articles
    /\ collect_urls articles [] = Ok urls
    /\ urls <> []
    /\ records_of (llm_calls w) urls (all_insights w')
    /\ session_invariant w'
    /\ stdin w' = stdin w /\ files w' = files w.
Proof.
  unfold process_news_data, mbind, M_bind, lift, modify, mret, M_ret.
  destruct (py_iter news_data) as [articles|e] eqn:Hiter; [|discriminate].
  destruct (collect_urls articles []) as [urls|e] eqn:Hurls; [|discriminate].
  destruct (negb (py_truthy (PList urls))) eqn:Hempty; [discriminate|].
  destruct (analyze_articles urls 1 (reset_aggregates w)) as [[[]|e] w1] eqn:Hrun;
    [|discriminate].
  intros [= <-]. apply analyze_articles_ok in Hrun as (rs & Hrs & Hins & Hkp & Htk & Hin & Hfs).
  simpl in Hrs, Hins, Hkp, Htk, Hin, Hfs. subst rs.
  exists articles, urls. unfold session_invariant.
  rewrite Hkp, Htk, !fold_add_new_nil.
  repeat split; try assumption; try reflexivity.
  intros ->. discriminate.
Qed.

(** A call that returns [False] has changed nothing. *)
Lemma process_news_data_false news_data w w' :
  process_news_data news_data w = (Ok false, w') -> w' = w.
Proof.
  unfold process_news_data, mbind, M_bind, lift, modify, mret, M_ret.
  destruct (py_iter news_data) as [articles|e]; [|discriminate].
  destruct (collect_urls articles []) as [urls|e]; [|discriminate].
  destruct (negb (py_truthy (PList urls))); [congruence|].
  destruct (analyze_articles urls 1 (reset_aggregates w)) as [[[]|e] w1];
    discriminate.
Qed.

Lemma ticker_symbols_trace records e :
  In e (ticker_symbols_of records) ->
  exists t, In t (ticker_elements_of records) /\ normalize_ticker t = Some e.
Proof.
  unfold ticker_symbols_of. intros He.
  apply list_elem_of_In, list_elem_of_omap in He as (t & Ht & Hn).
  exists t. split; [now apply list_elem_of_In|exact Hn].
Qed.

(** The loops complete on usable extraction results. *)
Lemma analyze_article_completes url index w result :
  extraction (llm_calls w) url = Ok result ->
  usable_result result ->
  exists w', analyze_article url index w = (Ok tt, w')
             /\ llm_calls w' = S (llm_calls w).
Proof.
  intros Hext (d & players & elems & -> & Hplayers & Helems).
  unfold analyze_article. unfold mbind at 1, M_bind at 1.
  rewrite extract_insights_from_url_run, Hext. run.
  simpl in Hplayers, Helems. rewrite Hplayers, for_each_add_player. simpl.
  rewrite Helems, for_each_add_ticker. eexists. split; reflexivity.
Qed.

Lemma analyze_articles_completes urls : forall index w,
  (forall k url, urls !! k = Some url ->
     exists result, extraction (llm_calls w + k) url = Ok result /\ usable_result result) ->
  exists w', analyze_articles urls index w = (Ok tt, w').
Proof.
  induction urls as [|url rest IH]; intros index w Hall; simpl; [now eexists|].
  destruct (Hall 0%nat url eq_refl) as (result & Hext & Husable).
  rewrite Nat.add_0_r in Hext.
  destruct (analyze_article_completes url index w result Hext Husable) as (w1 & Hone & Hcalls).
  unfold mbind, M_bind. rewrite Hone. apply IH.
  intros k url' Hk. rewrite Hcalls. replace (S (llm_calls w) + k)%nat with (llm_calls w + S k)%nat by lia.
  now apply Hall.
Qed.

Lemma process_news_data_completes news_data articles urls w :
  py_iter news_data = Ok articles ->
  collect_urls articles [] = Ok urls ->
  urls <> [] ->
  (forall k url, urls !! k = Some url ->
     exists result, extraction (llm_calls w + k) url = Ok result /\ usable_result result) ->
  exists w', process_news_data news_data w = (Ok true, w').
Proof.
  intros Hiter Hurls Hne Hall.
  destruct (analyze_articles_completes urls 1 (reset_aggregates w) Hall) as (w' & Hrun).
  exists w'. unfold process_news_data, mbind, M_bind, lift, modify, mret, M_ret.
  rewrite Hiter, Hurls.
  replace (negb (py_truthy (PList urls))) with false by (now destruct urls).
  now rewrite Hrun.
Qed.

Lemma initial_session_invariant n lines fs : session_invariant (mkWorld [] [] [] n lines fs).
Proof. split; reflexivity. Qed.

(** The invariant holds in every state of a session. *)
Lemma reachable_session_invariant w : reachable w -> session_invariant w.
Proof.
  induction 1 as [n lines fs|news_data w b w' _ IH Hrun|w w' _ IH Hins Hkp Htk].
  - apply initial_session_invariant.
  - destruct b.
    + apply process_news_data_true in Hrun.
      destruct Hrun as (? & ? & ? & ? & ? & ? & ? & ?). assumption.
    + now apply process_news_data_false in Hrun as ->.
  - unfold session_invariant in *. now rewrite Hins, Hkp, Htk.
Qed.

Lemma collect_urls_none articles : forall urls,
  (forall a, In a articles -> str_in "url" a = Ok false) ->
  collect_urls articles urls = Ok urls.
Proof.
  induction articles as [|a articles IH]; intros urls Hno; simpl; [reflexivity|].
  rewrite (Hno a) by now left. simpl. apply IH. intros a' Ha'. apply Hno. now right.
Qed.

(** C1.  When [process_news_data] returns [True], the stored records
    are those extracted for the URLs of the input, and the ticker
    aggregate is the list of first occurrences of the normalized ticker
    elements of these records: its entries are pairwise unequal, every
    string symbol of the input has exactly one entry, every symbol has
    an equal entry, every entry is the normalization of some input
    ticker element, and the entries keep the order of the input. *)
Theorem process_news_data_tickers news_data w w' :
  process_news_data news_data w = (Ok true, w') ->
  let records := all_insights w' in
  let symbols := ticker_symbols_of records in
  (exists articles urls,
     py_iter news_data = Ok articles /\ collect_urls articles [] = Ok urls
     /\ records_of (llm_calls w) urls records)
  /\ all_tickers w' = first_seen symbols
  /\ pairwise_distinct (all_tickers w')
  /\ (forall s, In (PStr s) symbols ->
        exists i, all_tickers w' !! i = Some (PStr s)
                  /\ forall j, all_tickers w' !! j = Some (PStr s) -> j = i)
  /\ (forall y, In y symbols ->
        exists e, In e (all_tickers w') /\ (e = y \/ py_eq e y = true))
  /\ (forall e, In e (all_tickers w') ->
        exists t, In t (ticker_elements_of records) /\ normalize_ticker t = Some e)
  /\ all_tickers w' `sublist_of` symbols.
Proof.
  intros Hrun records symbols.
  apply process_news_data_true in Hrun
    as (articles & urls & Hiter & Hurls & _ & Hrs & [_ Htk] & _).
  fold records in Hrs, Htk. fold symbols in Htk. rewrite Htk.
  split; [now exists articles, urls|].
  split; [reflexivity|].
  split; [apply first_seen_distinct|].
  split; [apply first_seen_str_once|].
  split; [apply first_seen_covers|].
  split; [|apply first_seen_sublist].
  intros e He. apply ticker_symbols_trace. now apply first_seen_In.
Qed.

(** C2.  After a completed call the key-player and the ticker aggregate
    are the lists of first occurrences of the players and of the
    normalized ticker symbols of the stored records (a call that
    returns [False] leaves the state as it was): no two entries are
    equal, in particular no string occurs twice, every string of the
    input is kept, whatever its case, and the entries stand in the order
    in which the input lists them. *)
Theorem process_news_data_invariant news_data w b w' :
  process_news_data news_data w = (Ok b, w') ->
  b = true \/ session_invariant w ->
  session_invariant w'
  /\ pairwise_distinct (all_key_players w')
  /\ pairwise_distinct (all_tickers w')
  /\ (forall s i j, all_key_players w' !! i = Some (PStr s) ->
        all_key_players w' !! j = Some (PStr s) -> i = j)
  /\ (forall s i j, all_tickers w' !! i = Some (PStr s) ->
        all_tickers w' !! j = Some (PStr s) -> i = j)
  /\ (forall s, In (PStr s) (all_key_players w')
                <-> In (PStr s) (players_of (all_insights w')))
  /\ (forall s, In (PStr s) (all_tickers w')
                <-> In (PStr s) (ticker_symbols_of (all_insights w')))
  /\ all_key_players w' `sublist_of` players_of (all_insights w')
  /\ all_tickers w' `sublist_of` ticker_symbols_of (all_insights w').
Proof.
  intros Hrun Hpre.
  assert (session_invariant w') as Hinv.
  { destruct b.
    - apply process_news_data_true in Hrun. destruct Hrun as (? & ? & ? & ? & ? & ? & ? & ?).
      assumption.
    - apply process_news_data_false in Hrun as ->.
      destruct Hpre as [Hb|Hinv]; [discriminate|exact Hinv]. }
  split; [exact Hinv|]. destruct Hinv as [Hkp Htk]. rewrite Hkp, Htk.
  repeat split; eauto using first_seen_distinct, pairwise_distinct_str,
    first_seen_sublist, first_seen_In; try (now apply first_seen_str_iff).
Qed.

(** C3.  When ['url' in article] is false for every article of the
    input list, [process_news_data] returns [False] and the state,
    with its three aggregates, is the one before the call. *)
Theorem process_news_data_no_urls articles w :
  (forall a, In a articles -> str_in "url" a = Ok false) ->
  process_news_data (PList articles) w = (Ok false, w)
  /\ forall w', process_news_data (PList articles) w = (Ok false, w') ->
       all_insights w' = all_insights w
       /\ all_key_players w' = all_key_players w
       /\ all_tickers w' = all_tickers w.
Proof.
  intros Hno.
  assert (process_news_data (PList articles) w = (Ok false, w)) as Hrun.
  { unfold process_news_data. run. now rewrite collect_urls_none. }
  split; [exact Hrun|].
  intros w' Hw'. rewrite Hrun in Hw'. now injection Hw' as <-.
Qed.



(** C10.  A ticker element that is a dict with both a [symbol] and a
    [ticker] key contributes the value of [symbol]: the aggregate is
    left as it is when it holds an equal entry, and gets the value of
    [symbol] appended otherwise; the value of [ticker] is not used. *)
Theorem add_ticker_symbol_first d symbol ticker_symbol w :
  dict_lookup "symbol" d = Some symbol ->
  dict_lookup "ticker" d = Some ticker_symbol ->
  normalize_ticker (PDict d) = Some symbol
  /\ add_ticker (PDict d) w
     = (Ok tt, set_all_tickers
                 (if list_contains symbol (all_tickers w)
                  then all_tickers w
                  else all_tickers w ++ [symbol]) w).
Proof.
  intros Hsym Htick. rewrite add_ticker_spec. simpl. rewrite Hsym. split; reflexivity.
Qed.

End Research.

(** ** Stock quotes *)

Section Stock.
Context `{External}.

Lemma get_stock_info_returns ticker_symbol :
  exists v, get_stock_info ticker_symbol = Ok v.
Proof.
  unfold get_stock_info, try_except.
  match goal with |- exists v, match ?body with _ => _ end = _ => destruct body end;
    eauto.
Qed.

Lemma get_stock_info_priced ticker_symbol p :
  quoted_price ticker_symbol = Some p -> get_stock_info ticker_symbol = Ok p.
Proof.
  unfold quoted_price, get_stock_info, quote_url, response_json, loads. run.
  destruct (requests_get _ _) as [response|e]; [|discriminate]. simpl.
  destruct (json_loads (content response)) as [[| | | | |data]|]; try discriminate; simpl.
  unfold dict_has.
  destruct (dict_lookup "Global Quote" data) as [[| | | | |quote]|]; try discriminate; simpl.
  unfold dict_has. intros ->. reflexivity.
Qed.

Lemma get_stock_info_unpriced ticker_symbol :
  quoted_price ticker_symbol = None ->
  get_stock_info ticker_symbol = Ok (PStr (could_not_retrieve ticker_symbol))
  \/ exists e, get_stock_info ticker_symbol = Ok (PStr (error_message e)).
Proof.
  unfold quoted_price, get_stock_info, quote_url, response_json, loads,
    could_not_retrieve, error_message. run.
  destruct (requests_get _ _) as [response|e]; simpl; [|eauto].
  destruct (json_loads (content response)) as [data|]; simpl; [|eauto].
  destruct data as [| | |s|l|data]; simpl; eauto.
  - destruct (is_substring "Global Quote" s); simpl; eauto.
  - destruct (list_contains (PStr "Global Quote") l); simpl; eauto.
  - unfold dict_has.
    destruct (dict_lookup "Global Quote" data) as [quote|]; simpl; eauto.
    destruct quote as [| | |s|l|quote]; simpl; eauto.
    + destruct (is_substring "05. price" s); simpl; eauto.
    + destruct (list_contains (PStr "05. price") l); simpl; eauto.
    + unfold dict_has. destruct (dict_lookup "05. price" quote); simpl; eauto.
      discriminate.
Qed.

(** C5, as the code has it.  [get_stock_info] never raises.  When the
    response parses to an object with a [Global Quote] object that has
    a [05. price] field, it returns the value of that field as it is,
    which is a string only if the field holds one.  In every other case
    it returns a string: the could-not-retrieve message that names the
    ticker when the parsed object lacks the quote or the price, and the
    error message with the text of the exception when the request or
    the parsing raises. *)
Theorem get_stock_info_spec ticker_symbol :
  (exists v, get_stock_info ticker_symbol = Ok v
             /\ (quoted_price ticker_symbol = Some v
                 \/ v = PStr (could_not_retrieve ticker_symbol)
                 \/ exists e, v = PStr (error_message e)))
  /\ (forall p, quoted_price ticker_symbol = Some p -> get_stock_info ticker_symbol = Ok p)
  /\ (forall s, quoted_price ticker_symbol = Some (PStr s) ->
                get_stock_info ticker_symbol = Ok (PStr s))
  /\ (forall response data,
        requests_get (quote_url ticker_symbol) [] = Ok response ->
        json_loads (content response) = Some (PDict data) ->
        dict_lookup "Global Quote" data = None
        \/ (exists quote, dict_lookup "Global Quote" data = Some (PDict quote)
                          /\ dict_lookup "05. price" quote = None) ->
        get_stock_info ticker_symbol = Ok (PStr (could_not_retrieve ticker_symbol)))
  /\ (forall e, requests_get (quote_url ticker_symbol) [] = Raise e ->
        get_stock_info ticker_symbol = Ok (PStr (error_message e)))
  /\ (forall response,
        requests_get (quote_url ticker_symbol) [] = Ok response ->
        json_loads (content response) = None ->
        get_stock_info ticker_symbol
        = Ok (PStr (error_message (loads_error (content response))))).
Proof.
  split.
  { destruct (quoted_price ticker_symbol) as [p|] eqn:Hq.
    - exists p. split; [now apply get_stock_info_priced|now left].
    - destruct (get_stock_info_unpriced _ Hq) as [Hr|[e Hr]]; eauto 6. }
  split; [apply get_stock_info_priced|].
  split; [intros s; apply get_stock_info_priced|].
  unfold get_stock_info, quote_url, response_json, loads, could_not_retrieve, error_message.
  split; [|split].
  - intros response data -> Hdata Hcase. run. rewrite Hdata. simpl. unfold dict_has.
    destruct Hcase as [->|(quote & -> & Hp)]; simpl; [reflexivity|].
    unfold dict_has. now rewrite Hp.
  - intros e ->. reflexivity.
  - intros response -> Hdata. run. now rewrite Hdata.
Qed.

Lemma scan_tool_calls_skip ticker fallback before : forall rest w,
  (forall c, In c before -> is_stock_call c = false) ->
  scan_tool_calls ticker (before ++ rest) fallback w
  = scan_tool_calls ticker rest fallback w.
Proof.
  induction before as [|c before IH]; intros rest w Hno; simpl; [reflexivity|].
  rewrite (Hno c) by now left. apply IH. intros c' Hc'. apply Hno. now right.
Qed.

(** C6.  The two-step protocol of [get_stock_info_with_api].  When no
    item of the first response is a function call named
    [get_stock_info], the text of the first response is returned.
    Otherwise, for the first such item, whose arguments parse to an
    object, [get_stock_info] runs on the [ticker_symbol] argument; the
    second request carries the user message, the function-call item
    and a [function_call_output] item with the call's [call_id] and the
    result; the text of the second response is returned. *)
Theorem get_stock_info_with_api_protocol ticker w first :
  responses_create (llm_calls w)
    (mkRequest "gpt-4o" config_tools (InputText (stock_prompt ticker))) = Ok first ->
  ((forall c, In c (output first) -> is_stock_call c = false) ->
   get_stock_info_with_api ticker w
   = (Ok (output_text first), set_llm_calls (S (llm_calls w)) w))
  /\ (forall before tool_call after args,
        output first = before ++ tool_call :: after ->
        (forall c, In c before -> is_stock_call c = false) ->
        is_stock_call tool_call = true ->
        json_loads (item_arguments tool_call) = Some (PDict args) ->
        exists result,
          get_stock_info (default PNone (dict_lookup "ticker_symbol" args)) = Ok result
          /\ forall final,
               responses_create (S (llm_calls w))
                 (mkRequest "gpt-4o" config_tools
                    (InputItems
                       [ InputDict (PDict [("role", PStr "user");
                                           ("content", PStr (stock_prompt ticker))]);
                         InputCall tool_call;
                         InputDict (PDict [("type", PStr "function_call_output");
                                           ("call_id", PStr (item_call_id tool_call));
                                           ("output", PStr (py_str result))]) ]))
               = Ok final ->
               get_stock_info_with_api ticker w
               = (Ok (output_text final), set_llm_calls (S (S (llm_calls w))) w)).
Proof.
  intros Hfirst.
  assert (get_stock_info_with_api ticker w
          = scan_tool_calls ticker (output first) (output_text first)
              (set_llm_calls (S (llm_calls w)) w)) as ->.
  { unfold get_stock_info_with_api, llm_create, mbind, M_bind. now rewrite Hfirst. }
  split.
  - intros Hno. rewrite <- (app_nil_r (output first)).
    rewrite scan_tool_calls_skip by exact Hno. reflexivity.
  - intros before tool_call after args -> Hno Hcall Hargs.
    destruct (get_stock_info_returns (default PNone (dict_lookup "ticker_symbol" args)))
      as [result Hresult].
    exists result. split; [exact Hresult|]. intros final Hfinal.
    rewrite scan_tool_calls_skip by exact Hno. simpl. rewrite Hcall.
    unfold loads, follow_up, llm_create. run. rewrite Hargs. simpl.
    rewrite Hresult. simpl. rewrite Hfinal. reflexivity.
Qed.

End Stock.

(** ** Voice selection and speech synthesis *)

Section Voice.
Context `{External}.


Lemma display_voices_ok listed :
  Forall well_formed_voice listed -> display_voices listed = Ok tt.
Proof.
  induction 1 as [|voice listed (d & name & voice_id & -> & Hname & Hid) _ IH]; simpl;
    [reflexivity|].
  rewrite Hname, Hid. simpl. exact IH.
Qed.

(** [select_voice] reads at most one line and touches nothing else. *)
Lemma select_voice_frame w r w1 :
  select_voice w = (r, w1) ->
  w1 = w \/ exists line rest, stdin w = line :: rest /\ w1 = set_stdin rest w.
Proof.
  unfold select_voice, try_except_M, input_line. run.
  destruct get_eleven_labs_voices as [voices|e]; [|intros [= <- <-]; now left].
  destruct (negb (py_truthy voices)); [intros [= <- <-]; now left|].
  destruct (py_iter voices) as [listed|e]; [|intros [= <- <-]; now left].
  destruct (display_voices listed) as [[]|e]; [|intros [= <- <-]; now left].
  destruct (py_len voices) as [count|e]; simpl.
  2: { destruct (is_ValueError e); intros [= <- <-]; now left. }
  destruct (stdin w) as [|line rest] eqn:Hin; simpl.
  { intros [= <- <-]; now left. }
  intros Hrun. right. exists line, rest. split; [reflexivity|]. revert Hrun.
  destruct (negb (negb (line =? EmptyString)))%string; [now intros [= <- <-]|].
  destruct (to_int line) as [n|e]; simpl.
  2: { destruct (is_ValueError e); now intros [= <- <-]. }
  destruct (Z.leb 1 n && Z.leb n count); [|now intros [= <- <-]].
  destruct (py_index voices (n - 1)) as [selected|e]; simpl.
  2: { destruct (is_ValueError e); now intros [= <- <-]. }
  destruct (py_getitem selected "name") as [name|e]; simpl.
  2: { destruct (is_ValueError e); now intros [= <- <-]. }
  destruct (py_getitem selected "voice_id") as [id|e]; simpl.
  2: { destruct (is_ValueError e); now intros [= <- <-]. }
  now intros [= <- <-].
Qed.



(** C9.  Whatever [text_to_speech] does, the files after the call are
    those before it, unless the synthesis request was answered with
    status 200: then the path is returned and the file at that path
    holds the bytes of the response.  With the API key set and a voice
    selected: a request that raises, or an answer with another status
    than 200, gives null and no file; an answer with status 200 gives
    the file with the bytes of the response and the path, when the file
    can be opened for writing. *)
Theorem text_to_speech_spec (text output_file : string) (w : World) :
  let body := mkBody text "eleven_multilingual_v2" in
  (forall r w',
     text_to_speech text output_file w = (r, w') ->
     files w' = files w
     \/ exists voice_id response,
          requests_post (tts_url voice_id) body tts_headers = Ok response
          /\ status_code response = 200%Z
          /\ r = Ok (PStr output_file)
          /\ files w' = <[output_file := content response]> (files w))
  /\ (forall voice_id w1,
        env_truthy (environ "ELEVEN_LABS_API_KEY") = true ->
        select_voice w = (Ok voice_id, w1) ->
        let post := requests_post (tts_url voice_id) body tts_headers in
        (forall e, post = Raise e ->
           text_to_speech text output_file w = (Ok PNone, w1) /\ files w1 = files w)
        /\ (forall response, post = Ok response -> status_code response <> 200%Z ->
              text_to_speech text output_file w = (Ok PNone, w1) /\ files w1 = files w)
        /\ (forall response, post = Ok response -> status_code response = 200%Z ->
              open_error output_file = None ->
              text_to_speech text output_file w
              = (Ok (PStr output_file),
                 set_files (<[output_file := content response]> (files w)) w1))).
Proof.
  intros body. split.
  - intros r w'. unfold text_to_speech, try_except_M, write_file.
    fold body. fold tts_headers. run.
    destruct (negb (env_truthy (environ "ELEVEN_LABS_API_KEY"))); [intros [= <- <-]; now left|].
    destruct (select_voice w) as [[voice_id|e] w1] eqn:Hsel.
    2: { intros [= <- <-]. left.
         apply select_voice_frame in Hsel as [->|(l & rest & _ & ->)]; reflexivity. }
    assert (files w1 = files w) as Hfiles
      by (apply select_voice_frame in Hsel as [->|(l & rest & _ & ->)]; reflexivity).
    fold (tts_url voice_id).
    destruct (requests_post (tts_url voice_id) body tts_headers) as [response|e] eqn:Hpost;
      simpl; [|intros [= <- <-]; now left].
    destruct (Z.eqb (status_code response) 200) eqn:Hstatus; simpl;
      [|intros [= <- <-]; now left].
    destruct (open_error output_file); simpl; [intros [= <- <-]; now left|].
    intros [= <- <-]. right. exists voice_id, response.
    apply Z.eqb_eq in Hstatus. simpl. now rewrite Hfiles.
  - intros voice_id w1 Hkey Hsel post.
    assert (files w1 = files w) as Hfiles
      by (apply select_voice_frame in Hsel as [->|(l & rest & _ & ->)]; reflexivity).
    unfold text_to_speech, try_except_M, write_file.
    fold body. fold tts_headers. unfold mbind, M_bind, mret, M_ret, lift.
    rewrite Hkey. cbv beta iota delta [negb]. rewrite Hsel. simpl.
    fold (tts_url voice_id). fold post.
    split; [|split].
    + intros e ->. now split.
    + intros response -> Hstatus. apply Z.eqb_neq in Hstatus. rewrite Hstatus. now split.
    + intros response -> Hstatus Hopen. apply Z.eqb_eq in Hstatus.
      rewrite Hstatus, Hopen. simpl. now rewrite Hfiles.
Qed.

End Voice.

(** ** The theorems on concrete runs *)

Import Scenario.

Lemma process_news_data_tickers_witness :
  exists w',
    @process_news_data research news (start []) = (Ok true, w')
    /\ all_tickers w' = [PStr "NVDA"; PStr "AMD"; PStr "TSLA"]
    /\ all_tickers w' = first_seen (ticker_symbols_of (all_insights w'))
    /\ pairwise_distinct (all_tickers w').
Proof.
  eexists. split; [vm_compute; reflexivity|].
  split; [reflexivity|].
  destruct (process_news_data_tickers (H := research) news (start []) _
              ltac:(vm_compute; reflexivity)) as (_ & Hfirst & Hdistinct & _).
  split; [exact Hfirst|exact Hdistinct].
Defined.

Lemma process_news_data_invariant_witness :
  exists w',
    @process_news_data research news (start []) = (Ok true, w')
    /\ all_key_players w' = [PStr "Nvidia"; PStr "nvidia"; PStr "Tesla"]
    /\ session_invariant w'
    /\ pairwise_distinct (all_key_players w').
Proof.
  eexists. split; [vm_compute; reflexivity|].
  split; [reflexivity|].
  destruct (process_news_data_invariant (H := research) news (start []) true _
              ltac:(vm_compute; reflexivity) ltac:(left; reflexivity))
    as (Hinv & Hdistinct & _).
  split; [exact Hinv|exact Hdistinct].
Defined.

Lemma process_news_data_no_urls_witness :
  let previous := mkWorld [PDict [("url", PStr "https://a.example/0")]]
                    [PStr "Nvidia"] [PStr "NVDA"] 1 [] ∅ in
  @process_news_data research
    (PList [PDict [("title", PStr "No link")]; PDict [("title", PStr "Nor here")]]) previous
  = (Ok false, previous).
Proof.
  intros previous.
  refine (proj1 (process_news_data_no_urls (H := research) _ previous _)).
  intros a [<-|[<-|[]]]; reflexivity.
Defined.



Lemma add_ticker_symbol_first_witness :
  add_ticker (PDict [("ticker", PStr "Advanced Micro"); ("symbol", PStr "AMD")])
    (mkWorld [] [] [PStr "NVDA"] 0 [] ∅)
  = (Ok tt, mkWorld [] [] [PStr "NVDA"; PStr "AMD"] 0 [] ∅).
Proof.
  refine (proj2 (add_ticker_symbol_first
                   [("ticker", PStr "Advanced Micro"); ("symbol", PStr "AMD")]
                   (PStr "AMD") (PStr "Advanced Micro")
                   (mkWorld [] [] [PStr "NVDA"] 0 [] ∅) _ _));
    reflexivity.
Defined.

(** The claim that [get_stock_info] returns a string for every response
    fails when the price field holds a number. *)
Lemma get_stock_info_number :
  @get_stock_info (quoting (PInt 187) []) (PStr "AAPL") = Ok (PInt 187)
  /\ ~ (forall (E : External) (ticker_symbol : pyval),
          exists s, @get_stock_info E ticker_symbol = Ok (PStr s)).
Proof.
  split; [reflexivity|].
  intros Hstring. destruct (Hstring (quoting (PInt 187) []) (PStr "AAPL")) as [s Hs].
  vm_compute in Hs. discriminate Hs.
Qed.

Lemma get_stock_info_spec_witness :
  @get_stock_info (quoting (PStr "187.50") []) (PStr "AAPL") = Ok (PStr "187.50")
  /\ @get_stock_info no_quote (PStr "AAPL") = Ok (PStr "Could not retrieve price for AAPL")
  /\ @get_stock_info unreachable (PStr "AAPL") = Ok (PStr "Error: connection refused")
  /\ @get_stock_info not_json (PStr "AAPL") = Ok (PStr "Error: Expecting value").
Proof.
  split; [|split; [|split]].
  - refine (proj1 (proj2 (proj2 (get_stock_info_spec (H := quoting (PStr "187.50") [])
                                   (PStr "AAPL")))) "187.50" _).
    reflexivity.
  - refine (proj1 (proj2 (proj2 (proj2 (get_stock_info_spec (H := no_quote) (PStr "AAPL")))))
              (mkResponse 200 "limit") [("Note", PStr "rate limit reached")] _ _ _);
      [reflexivity|reflexivity|left; reflexivity].
  - refine (proj1 (proj2 (proj2 (proj2 (proj2
              (get_stock_info_spec (H := unreachable) (PStr "AAPL"))))))
              (RequestError "connection refused") _).
    reflexivity.
  - refine (proj2 (proj2 (proj2 (proj2 (proj2
              (get_stock_info_spec (H := not_json) (PStr "AAPL"))))))
              (mkResponse 200 "<html>") _ _); reflexivity.
Defined.

Lemma get_stock_info_with_api_protocol_witness :
  @get_stock_info_with_api (quoting (PStr "187.50") tool_replies) (PStr "AAPL") (start [])
  = (Ok "AAPL trades at 187.50.", set_llm_calls 2 (start []))
  /\ @get_stock_info_with_api (quoting (PStr "187.50") direct_replies) (PStr "AAPL") (start [])
     = (Ok "I cannot look that up.", set_llm_calls 1 (start [])).
Proof.
  split.
  - destruct (proj2 (get_stock_info_with_api_protocol
                       (H := quoting (PStr "187.50") tool_replies) (PStr "AAPL") (start [])
                       (mkLLMResponse [mkItem "reasoning" EmptyString EmptyString EmptyString; stock_call] EmptyString)
                       ltac:(reflexivity))
                [mkItem "reasoning" EmptyString EmptyString EmptyString] stock_call []
                [("ticker_symbol", PStr "AAPL")]
                ltac:(reflexivity)
                ltac:(intros c [<-|[]]; reflexivity)
                ltac:(reflexivity) ltac:(reflexivity))
      as (result & Hresult & Hfinal).
    exact (Hfinal (mkLLMResponse [mkItem "message" EmptyString EmptyString EmptyString] "AAPL trades at 187.50.")
             ltac:(reflexivity)).
  - refine (proj1 (get_stock_info_with_api_protocol
                     (H := quoting (PStr "187.50") direct_replies) (PStr "AAPL") (start [])
                     (mkLLMResponse [mkItem "message" EmptyString EmptyString EmptyString] "I cannot look that up.")
                     ltac:(reflexivity)) _).
    intros c [<-|[]]; reflexivity.
Defined.


Lemma text_to_speech_spec_witness :
  @text_to_speech (studio (Ok (mkResponse 200 "ID3-audio"))) "hello" "speech.mp3" (start ["2"])
  = (Ok (PStr "speech.mp3"), set_files {["speech.mp3" := "ID3-audio"]} (start []))
  /\ @text_to_speech (studio (Ok (mkResponse 401 "denied"))) "hello" "speech.mp3" (start ["2"])
     = (Ok PNone, start [])
  /\ @text_to_speech (studio offline) "hello" "speech.mp3" (start ["2"])
     = (Ok PNone, start []).
Proof.
  split; [|split].
  - refine (proj2 (proj2 (proj2 (text_to_speech_spec
              (H := studio (Ok (mkResponse 200 "ID3-audio"))) "hello" "speech.mp3" (start ["2"]))
              (PStr "pNInz6obpgDQGcFmaJgB") (start []) _ _))
              (mkResponse 200 "ID3-audio") _ _ _); reflexivity.
  - refine (proj1 (proj1 (proj2 (proj2 (text_to_speech_spec
              (H := studio (Ok (mkResponse 401 "denied"))) "hello" "speech.mp3" (start ["2"]))
              (PStr "pNInz6obpgDQGcFmaJgB") (start []) _ _))
              (mkResponse 401 "denied") _ _)); [reflexivity|reflexivity|reflexivity|].
    simpl. lia.
  - refine (proj1 (proj1 (proj2 (text_to_speech_spec
              (H := studio offline) "hello" "speech.mp3" (start ["2"]))
              (PStr "pNInz6obpgDQGcFmaJgB") (start []) _ _)
              (RequestError "connection refused") _)); reflexivity.
Defined.

(** * Properties of the rest of the code *)

(** ** More on [process_news_data] *)

Section ResearchMore.
Context `{External}.

Lemma collect_urls_app l1 : forall l2 acc,
  collect_urls (l1 ++ l2) acc = (urls ← collect_urls l1 acc; collect_urls l2 urls).
Proof.
  induction l1 as [|a l1 IH]; intros l2 acc; simpl; [reflexivity|].
  destruct (str_in "url" a) as [[]|e]; simpl; [|apply IH|reflexivity].
  destruct (py_getitem a "url") as [url|e]; simpl; [|reflexivity].
  destruct (py_getitem a "title") as [title|e]; simpl; [|reflexivity].
  destruct (str_in "description" a) as [[]|e]; simpl; [| |reflexivity].
  - destruct (py_getitem a "description") as [description|e]; simpl; [|reflexivity].
    destruct (py_slice100 description); simpl; [apply IH|reflexivity].
  - apply IH.
Qed.

(** The URLs the first loop collects are the [url] items of the
    articles that are dicts with one, in the order of the articles. *)
Lemma collect_urls_ok articles : forall acc urls,
  collect_urls articles acc = Ok urls -> urls = acc ++ omap article_url articles.
Proof.
  induction articles as [|a articles IH]; intros acc urls; simpl.
  - intros [= <-]. now rewrite app_nil_r.
  - destruct a as [| | |s|l|d]; simpl; try discriminate.
    + destruct (is_substring "url" s); simpl; [discriminate|apply IH].
    + destruct (list_contains (PStr "url") l); simpl; [discriminate|apply IH].
    + unfold dict_has. destruct (dict_lookup "url" d) as [url|] eqn:Hurl; simpl; [|apply IH].
      destruct (dict_lookup "title" d); simpl; [|discriminate].
      intros Hrest.
      assert (collect_urls articles (acc ++ [url]) = Ok urls) as Hrec.
      { destruct (dict_lookup "description" d) as [description|]; simpl in Hrest;
          [|exact Hrest].
        destruct (py_slice100 description); simpl in Hrest; [exact Hrest|discriminate]. }
      apply IH in Hrec. rewrite Hrec, <- app_assoc. reflexivity.
Qed.

Lemma analyze_articles_calls urls : forall index w w',
  analyze_articles urls index w = (Ok tt, w') ->
  llm_calls w' = (llm_calls w + length urls)%nat.
Proof.
  induction urls as [|url rest IH]; intros index w w'; simpl.
  - intros [= <-]. lia.
  - unfold mbind, M_bind.
    destruct (analyze_article url index w) as [[[]|e] w1] eqn:Hone; [|discriminate].
    apply analyze_article_ok in Hone as (r & _ & ->).
    intros Hrest. apply IH in Hrest. simpl in Hrest. lia.
Qed.

Lemma records_of_urls urls : forall n rs,
  records_of n urls rs -> map (record_field "url") rs = urls.
Proof.
  induction urls as [|url urls IH]; intros n [|r rs]; simpl; try tauto.
  intros [(result & _ & ->) Hrest]. simpl. f_equal. eapply IH. exact Hrest.
Qed.

(** X1.  A call of [process_news_data] that returns [True] has made
    exactly one LLM call for every article that is a dict with a [url]
    item, and has stored exactly one record for each of them, in the
    order of the articles, under that URL. *)
Theorem process_news_data_one_call_per_url news_data w w' :
  process_news_data news_data w = (Ok true, w') ->
  let urls := omap article_url (elements news_data) in
  urls <> []
  /\ llm_calls w' = (llm_calls w + length urls)%nat
  /\ map (record_field "url") (all_insights w') = urls.
Proof.
  intros Hrun urls.
  pose proof Hrun as Htrue.
  apply process_news_data_true in Htrue
    as (articles & urls' & Hiter & Hurls & Hne & Hrs & _).
  apply collect_urls_ok in Hurls as Heq. simpl in Heq.
  assert (urls' = urls) as -> by (subst urls; unfold elements; now rewrite Hiter).
  split; [exact Hne|]. split; [|eapply records_of_urls; exact Hrs].
  revert Hrun. unfold process_news_data, mbind, M_bind, lift, modify, mret, M_ret.
  rewrite Hiter, Hurls.
  destruct (negb (py_truthy (PList urls))); [discriminate|].
  destruct (analyze_articles urls 1 (reset_aggregates w)) as [[[]|e] w1] eqn:Hloop;
    [|discriminate].
  intros [= <-]. apply analyze_articles_calls in Hloop. exact Hloop.
Qed.

(** X2.  When an article is a dict with a [url] but no [title], and
    the articles before it are listed without error, the call raises
    [KeyError] for [title] and the state is the one before the call:
    no LLM call has been made and nothing has been reset, whatever the
    other articles are. *)
Theorem process_news_data_missing_title before d after url urls w :
  collect_urls before [] = Ok urls ->
  dict_lookup "url" d = Some url ->
  dict_lookup "title" d = None ->
  process_news_data (PList (before ++ PDict d :: after)) w = (Raise (KeyError "title"), w).
Proof.
  intros Hbefore Hurl Htitle.
  unfold process_news_data, mbind, M_bind, lift. simpl.
  rewrite collect_urls_app, Hbefore. simpl. unfold dict_has.
  rewrite Hurl. simpl. rewrite Htitle. reflexivity.
Qed.

(** X3.  Once a URL has been found, a failure of the first extraction
    comes after the reset: when the LLM call raises, or when the text
    parses to something that is not an object, [process_news_data]
    raises with the three aggregates empty, so the results of the
    previous research action are gone; when the [key_players] field
    cannot be iterated, the record is stored and the aggregates stay
    empty. *)
Theorem process_news_data_fails_after_reset news_data articles url rest w :
  py_iter news_data = Ok articles ->
  collect_urls articles [] = Ok (url :: rest) ->
  let w1 := set_llm_calls (S (llm_calls w)) (reset_aggregates w) in
  (forall e, extraction (llm_calls w) url = Raise e ->
     process_news_data news_data w = (Raise e, w1))
  /\ (forall result, extraction (llm_calls w) url = Ok result ->
        isinstance_dict result = false ->
        process_news_data news_data w = (Raise (AttributeError "get"), w1))
  /\ (forall result e, extraction (llm_calls w) url = Ok result ->
        isinstance_dict result = true ->
        py_iter (record_field "key_players" result) = Raise e ->
        process_news_data news_data w
        = (Raise e,
           set_all_insights
             [insight_record url (record_field "insights" result)
                (record_field "key_players" result) (record_field "tickers" result)] w1)).
Proof.
  intros Hiter Hurls w1.
  assert (forall r w2,
            analyze_article url 1 (reset_aggregates w) = (Raise r, w2) ->
            process_news_data news_data w = (Raise r, w2)) as Hstep.
  { intros r w2 Hone.
    unfold process_news_data, mbind, M_bind, lift, modify, mret, M_ret.
    rewrite Hiter, Hurls. simpl. unfold mbind, M_bind. now rewrite Hone. }
  split; [|split].
  - intros e Hext. apply Hstep.
    unfold analyze_article. unfold mbind at 1, M_bind at 1.
    rewrite extract_insights_from_url_run. simpl. now rewrite Hext.
  - intros result Hext Hdict. apply Hstep.
    unfold analyze_article. unfold mbind at 1, M_bind at 1.
    rewrite extract_insights_from_url_run. simpl. rewrite Hext.
    destruct result; try discriminate; reflexivity.
  - intros result e Hext Hdict Hplayers. apply Hstep.
    unfold analyze_article. unfold mbind at 1, M_bind at 1.
    rewrite extract_insights_from_url_run. simpl. rewrite Hext.
    destruct result as [| | | | |d]; try discriminate.
    run. simpl in Hplayers. rewrite Hplayers. reflexivity.
Qed.

End ResearchMore.

(** ** More on the quote lookup *)

Section StockMore.
Context `{External}.

Lemma scan_tool_calls_frame ticker fallback calls : forall w r w',
  scan_tool_calls ticker calls fallback w = (r, w') ->
  w' = w \/ w' = set_llm_calls (S (llm_calls w)) w.
Proof.
  induction calls as [|tool_call rest IH]; intros w r w'; simpl.
  - intros [= <- <-]. now left.
  - destruct (is_stock_call tool_call); [|apply IH].
    unfold llm_create. run.
    destruct (loads (item_arguments tool_call)) as [args|e]; simpl;
      [|intros [= <- <-]; now left].
    destruct (py_get args "ticker_symbol" PNone) as [ticker_symbol|e]; simpl;
      [|intros [= <- <-]; now left].
    destruct (get_stock_info ticker_symbol) as [result|e]; simpl;
      [|intros [= <- <-]; now left].
    destruct (responses_create _ _); intros [= <- <-]; now right.
Qed.

Lemma get_stock_info_with_api_world ticker w r w' :
  get_stock_info_with_api ticker w = (r, w') ->
  w' = set_llm_calls (S (llm_calls w)) w \/ w' = set_llm_calls (S (S (llm_calls w))) w.
Proof.
  unfold get_stock_info_with_api, llm_create. unfold mbind at 1, M_bind at 1.
  destruct (responses_create _ _) as [response|e].
  - intros Hscan. apply scan_tool_calls_frame in Hscan as [->| ->]; auto.
  - intros [= <- <-]. auto.
Qed.

(** X4.  Whatever its outcome, [get_stock_info_with_api] makes one or
    two LLM calls and changes nothing else: the session aggregates, the
    pending input and the files are those before the call. *)
Theorem get_stock_info_with_api_frame ticker w r w' :
  get_stock_info_with_api ticker w = (r, w') ->
  (llm_calls w' = S (llm_calls w) \/ llm_calls w' = S (S (llm_calls w)))
  /\ all_insights w' = all_insights w
  /\ all_key_players w' = all_key_players w
  /\ all_tickers w' = all_tickers w
  /\ stdin w' = stdin w
  /\ files w' = files w.
Proof.
  intros Hrun. apply get_stock_info_with_api_world in Hrun as [->| ->]; simpl; auto 10.
Qed.

(** X5.  The arguments of the function call are parsed outside any
    [try]: when [json.loads] refuses them the lookup raises the
    exception [json.loads] raised ([JSONDecodeError] for malformed
    text, [ValueError] or [RecursionError] for an oversized number or
    too deep a nesting), and when they parse to something that is not
    an object it raises [AttributeError]; in both cases one LLM call
    has been made and the quote service has not been used for the
    answer. *)
Theorem get_stock_info_with_api_bad_arguments ticker w first before tool_call after :
  responses_create (llm_calls w)
    (mkRequest "gpt-4o" config_tools (InputText (stock_prompt ticker))) = Ok first ->
  output first = before ++ tool_call :: after ->
  (forall c, In c before -> is_stock_call c = false) ->
  is_stock_call tool_call = true ->
  let w1 := set_llm_calls (S (llm_calls w)) w in
  (json_loads (item_arguments tool_call) = None ->
   get_stock_info_with_api ticker w = (Raise (loads_error (item_arguments tool_call)), w1))
  /\ (forall args, json_loads (item_arguments tool_call) = Some args ->
        isinstance_dict args = false ->
        get_stock_info_with_api ticker w = (Raise (AttributeError "get"), w1)).
Proof.
  intros Hfirst Hout Hno Hcall w1.
  assert (get_stock_info_with_api ticker w
          = scan_tool_calls ticker (tool_call :: after) (output_text first) w1) as ->.
  { unfold get_stock_info_with_api, llm_create, mbind, M_bind. rewrite Hfirst, Hout.
    now rewrite scan_tool_calls_skip. }
  simpl. rewrite Hcall. unfold loads. run. split.
  - intros ->. reflexivity.
  - intros args -> Hdict. destruct args; try discriminate; reflexivity.
Qed.

End StockMore.

(** ** More on voice selection and speech synthesis *)

Section VoiceMore.
Context `{External}.

(** X6.  [get_eleven_labs_voices] turns every failure into null: a
    missing or empty API key (no request is needed to know the result),
    a request that raises, a status other than 200, a body that is not
    JSON or not a JSON object.  On status 200 with an object it returns
    the [voices] field, and the empty list when the field is absent. *)
Theorem get_eleven_labs_voices_cases :
  let get := requests_get voices_url voices_headers in
  (env_truthy (environ "ELEVEN_LABS_API_KEY") = false -> get_eleven_labs_voices = Ok PNone)
  /\ (env_truthy (environ "ELEVEN_LABS_API_KEY") = true ->
      (forall e, get = Raise e -> get_eleven_labs_voices = Ok PNone)
      /\ (forall response, get = Ok response -> status_code response <> 200%Z ->
            get_eleven_labs_voices = Ok PNone)
      /\ (forall response, get = Ok response -> status_code response = 200%Z ->
            json_loads (content response) = None ->
            get_eleven_labs_voices = Ok PNone)
      /\ (forall response data, get = Ok response -> status_code response = 200%Z ->
            json_loads (content response) = Some data -> isinstance_dict data = false ->
            get_eleven_labs_voices = Ok PNone)
      /\ (forall response d, get = Ok response -> status_code response = 200%Z ->
            json_loads (content response) = Some (PDict d) ->
            get_eleven_labs_voices = Ok (default (PList []) (dict_lookup "voices" d)))).
Proof.
  intros get. unfold get_eleven_labs_voices. fold voices_url voices_headers. fold get.
  split; [intros ->; reflexivity|].
  intros ->. unfold response_json, loads. cbn [negb]. cbv iota.
  split; [|split; [|split; [|split]]].
  - intros e ->. reflexivity.
  - intros response -> Hstatus. apply Z.eqb_neq in Hstatus. simpl. now rewrite Hstatus.
  - intros response -> Hstatus Hbody. apply Z.eqb_eq in Hstatus. simpl.
    now rewrite Hstatus, Hbody.
  - intros response data -> Hstatus Hbody Hdict. apply Z.eqb_eq in Hstatus. simpl.
    rewrite Hstatus, Hbody. destruct data; try discriminate; reflexivity.
  - intros response d -> Hstatus Hbody. apply Z.eqb_eq in Hstatus. simpl.
    now rewrite Hstatus, Hbody.
Qed.

Lemma display_voices_app good : forall rest,
  Forall well_formed_voice good ->
  display_voices (good ++ rest) = display_voices rest.
Proof.
  induction good as [|voice good IH]; intros rest Hwf; simpl; [reflexivity|].
  apply Forall_cons in Hwf as [(d & name & voice_id & -> & Hname & Hid) Hwf].
  simpl. rewrite Hname, Hid. simpl. now apply IH.
Qed.

(** X7.  The catalogue is printed outside the [try]: when a listed
    voice is a dict that lacks [name], or has a name and lacks
    [voice_id], [select_voice] raises [KeyError] before asking the
    user, and no input is consumed. *)
Theorem select_voice_malformed_voice w good d rest :
  get_eleven_labs_voices = Ok (PList (good ++ PDict d :: rest)) ->
  Forall well_formed_voice good ->
  (dict_lookup "name" d = None -> select_voice w = (Raise (KeyError "name"), w))
  /\ (forall name, dict_lookup "name" d = Some name -> dict_lookup "voice_id" d = None ->
        select_voice w = (Raise (KeyError "voice_id"), w)).
Proof.
  intros Hvoices Hgood.
  assert (py_truthy (PList (good ++ PDict d :: rest)) = true) as Htruthy
    by (destruct good; reflexivity).
  unfold select_voice, mbind, M_bind, mret, M_ret, lift.
  rewrite Hvoices, Htruthy. cbn [negb py_iter].
  rewrite display_voices_app by exact Hgood. split.
  - intros Hname. simpl. now rewrite Hname.
  - intros name Hname Hid. simpl. now rewrite Hname, Hid.
Qed.

(** X8.  Only [ValueError] is caught around the prompt: at the end of
    the input [select_voice] raises [EOFError]. *)
Theorem select_voice_end_of_input w listed :
  get_eleven_labs_voices = Ok (PList listed) ->
  listed <> [] ->
  Forall well_formed_voice listed ->
  stdin w = [] ->
  select_voice w = (Raise EOFError, w).
Proof.
  intros Hvoices Hne Hwf Hin.
  assert (py_truthy (PList listed) = true) as Htruthy
    by (destruct listed; [congruence|reflexivity]).
  unfold select_voice, try_except_M, input_line, mbind, M_bind, mret, M_ret, lift.
  rewrite Hvoices, Htruthy. simpl.
  rewrite (display_voices_ok listed Hwf). now rewrite Hin.
Qed.

(** X9.  A voice identifier returned by [select_voice] is either the
    default one or the [voice_id] of a voice of the catalogue; the call
    reads at most one line and changes nothing else in the state. *)
Theorem select_voice_returns_listed w voice_id w' :
  select_voice w = (Ok voice_id, w') ->
  (voice_id = default_voice
   \/ exists listed d,
        get_eleven_labs_voices = Ok (PList listed)
        /\ In (PDict d) listed
        /\ dict_lookup "voice_id" d = Some voice_id)
  /\ (w' = w \/ exists line rest, stdin w = line :: rest /\ w' = set_stdin rest w).
Proof.
  intros Hrun. split; [|eapply select_voice_frame; exact Hrun].
  revert Hrun. unfold select_voice, try_except_M, input_line, to_int. run.
  destruct get_eleven_labs_voices as [voices|e]; [|discriminate].
  destruct (negb (py_truthy voices)); [intros [= <- _]; now left|].
  destruct (py_iter voices) as [listed|e]; [|discriminate].
  destruct (display_voices listed) as [[]|e]; [|discriminate].
  destruct (py_len voices) as [count|e]; simpl.
  2: { destruct (is_ValueError e); [intros [= <- _]; now left|discriminate]. }
  destruct (stdin w) as [|line rest]; simpl; [discriminate|].
  destruct (negb (negb (line =? EmptyString)))%string; [intros [= <- _]; now left|].
  destruct (py_int line) as [n|]; simpl; [|intros [= <- _]; now left].
  destruct (Z.leb 1 n && Z.leb n count); [|intros [= <- _]; now left].
  destruct (py_index voices (n - 1)) as [selected|e] eqn:Hindex; simpl.
  2: { destruct (is_ValueError e); [intros [= <- _]; now left|discriminate]. }
  destruct (py_getitem selected "name") as [name|e] eqn:Hname; simpl.
  2: { destruct (is_ValueError e); [intros [= <- _]; now left|discriminate]. }
  destruct (py_getitem selected "voice_id") as [id|e] eqn:Hid; simpl.
  2: { destruct (is_ValueError e); [intros [= <- _]; now left|discriminate]. }
  intros [= <- _]. right.
  destruct selected as [| | | | |d]; try discriminate.
  destruct voices as [| | |s|l|dv]; try discriminate.
  - simpl in Hindex. destruct (String.get (Z.to_nat (n - 1)) s); discriminate.
  - exists l, d. split; [reflexivity|]. simpl in Hindex.
    destruct (l !! Z.to_nat (n - 1)) as [x|] eqn:Hx; [|discriminate].
    injection Hindex as ->. split.
    + apply list_elem_of_In. eapply list_elem_of_lookup_2. exact Hx.
    + simpl in Hid. destruct (dict_lookup "voice_id" d); congruence.
Qed.

(** X10.  [text_to_speech] catches every exception of the request and
    of the file: it raises only when [select_voice] raises.  Without an
    API key it returns null at once, reading no input; when the answer
    has status 200 and the file cannot be opened it returns null and
    writes nothing. *)
Theorem text_to_speech_failures text output_file w :
  (env_truthy (environ "ELEVEN_LABS_API_KEY") = false ->
   text_to_speech text output_file w = (Ok PNone, w))
  /\ (forall e w', text_to_speech text output_file w = (Raise e, w') ->
        select_voice w = (Raise e, w'))
  /\ (forall voice_id w1 response e,
        env_truthy (environ "ELEVEN_LABS_API_KEY") = true ->
        select_voice w = (Ok voice_id, w1) ->
        requests_post (tts_url voice_id) (mkBody text "eleven_multilingual_v2") tts_headers
        = Ok response ->
        status_code response = 200%Z ->
        open_error output_file = Some e ->
        text_to_speech text output_file w = (Ok PNone, w1)).
Proof.
  unfold text_to_speech, try_except_M, write_file. fold tts_headers.
  unfold mbind, M_bind, mret, M_ret, lift.
  split; [intros ->; reflexivity|]. split.
  - intros e w'. destruct (negb (env_truthy (environ "ELEVEN_LABS_API_KEY"))); [discriminate|].
    destruct (select_voice w) as [[voice_id|e'] w1]; [|now intros [= <- <-]].
    fold (tts_url voice_id).
    destruct (requests_post _ _ _) as [response|e']; [|discriminate].
    destruct (Z.eqb (status_code response) 200); [|discriminate].
    destruct (open_error output_file); discriminate.
  - intros voice_id w1 response e -> Hsel Hpost Hstatus Hopen.
    cbv beta iota delta [negb]. rewrite Hsel. fold (tts_url voice_id).
    rewrite Hpost. apply Z.eqb_eq in Hstatus. now rewrite Hstatus, Hopen.
Qed.

End VoiceMore.

(** ** The narration request *)

Section Narration.
Context `{External}.

Lemma py_join_strings sep l : Forall is_string l -> exists s, py_join sep l = Ok s.
Proof.
  induction 1 as [|x l Hx _ [s IH]]; simpl; [eauto|].
  destruct x; try discriminate Hx. destruct l; [eauto|].
  rewrite IH. simpl. eauto.
Qed.

Lemma py_join_not_strings sep l :
  ~ Forall is_string l ->
  py_join sep l = Raise (TypeError "sequence item: expected str instance").
Proof.
  induction l as [|x l IH]; intros Hnot; [destruct Hnot; constructor|].
  simpl. destruct x as [| | |s| |]; try reflexivity.
  destruct l as [|y l]; [destruct Hnot; repeat constructor|].
  rewrite IH; [reflexivity|].
  intros Hall. apply Hnot. constructor; [reflexivity|exact Hall].
Qed.

Lemma is_string_dec_all l : Forall is_string l \/ ~ Forall is_string l.
Proof.
  induction l as [|x l [IH|IH]].
  - left. constructor.
  - destruct (isinstance_str x) eqn:Hx.
    + left. now constructor.
    + right. intros Hall. apply Forall_cons in Hall as [Hx' _].
      unfold is_string in Hx'. congruence.
  - right. intros Hall. apply Forall_cons in Hall as [_ Hall]. now apply IH.
Qed.

Lemma generate_sends w insight_summary :
  summarize (all_insights w) [] = Ok insight_summary ->
  Forall is_string (all_key_players w) -> Forall is_string (all_tickers w) ->
  exists prompt,
    brain_rot_prompt (all_key_players w) (all_tickers w) insight_summary = Ok prompt
    /\ generate_brain_rot_explanation w
       = (match responses_create (llm_calls w) (mkRequest "gpt-4o" PNone (InputText prompt)) with
          | Ok response => Ok (output_text response)
          | Raise e => Raise e
          end,
          set_llm_calls (S (llm_calls w)) w).
Proof.
  intros Hsummary Hplayers Htickers. unfold generate_brain_rot_explanation, llm_create.
  unfold mbind, M_bind, mret, M_ret, lift, gets. rewrite Hsummary.
  destruct (py_join_strings ", " _ Hplayers) as [players Hp].
  destruct (py_join_strings ", " _ Htickers) as [tickers Ht].
  unfold brain_rot_prompt, mbind, result_bind. rewrite Hp, Ht.
  eexists. split; [reflexivity|].
  destruct (responses_create _ _); reflexivity.
Qed.

Lemma generate_type_error w insight_summary :
  summarize (all_insights w) [] = Ok insight_summary ->
  ~ (Forall is_string (all_key_players w) /\ Forall is_string (all_tickers w)) ->
  generate_brain_rot_explanation w
  = (Raise (TypeError "sequence item: expected str instance"), w).
Proof.
  intros Hsummary Hnot. unfold generate_brain_rot_explanation, llm_create.
  unfold mbind, M_bind, mret, M_ret, lift, gets. rewrite Hsummary.
  unfold brain_rot_prompt, mbind, result_bind.
  destruct (is_string_dec_all (all_key_players w)) as [Hplayers|Hplayers].
  - destruct (py_join_strings ", " _ Hplayers) as [players ->].
    rewrite py_join_not_strings; [reflexivity|tauto].
  - now rewrite py_join_not_strings.
Qed.


End Narration.

(** ** The records a research action stores *)

Section Stored.
Context `{External}.

Lemma analyze_article_stored url index w w' :
  analyze_article url index w = (Ok tt, w') ->
  exists r, all_insights w' = all_insights w ++ [r] /\ stored_record r.
Proof.
  unfold analyze_article. unfold mbind at 1, M_bind at 1.
  rewrite extract_insights_from_url_run.
  destruct (extraction (llm_calls w) url) as [result|e]; [|discriminate].
  destruct result as [| | | | |d]; try discriminate.
  run.
  set (kp := default (PList []) (dict_lookup "key_players" d)).
  set (tk := default (PList []) (dict_lookup "tickers" d)).
  destruct (py_iter kp) as [players|e] eqn:Hkp; [|discriminate].
  rewrite for_each_add_player. simpl.
  destruct (py_iter tk) as [elems|e] eqn:Htk; [|discriminate].
  rewrite for_each_add_ticker. simpl.
  intros [= <-]. eexists. split; [reflexivity|].
  exists url, (default (PList []) (dict_lookup "insights" d)), kp, tk, players, elems.
  auto.
Qed.

Lemma analyze_articles_stored urls : forall index w w',
  analyze_articles urls index w = (Ok tt, w') ->
  exists rs, all_insights w' = all_insights w ++ rs /\ Forall stored_record rs.
Proof.
  induction urls as [|url rest IH]; intros index w w'; simpl.
  - intros [= <-]. exists []. now rewrite app_nil_r.
  - unfold mbind, M_bind.
    destruct (analyze_article url index w) as [[[]|e] w1] eqn:Hone; [|discriminate].
    apply analyze_article_stored in Hone as (r & Hr & Hstored).
    intros Hrest. apply IH in Hrest as (rs & Hrs & Hall).
    exists (r :: rs). split; [|now constructor].
    rewrite Hrs, Hr, <- app_assoc. reflexivity.
Qed.

(** Every record a completed research action leaves is a stored
    record. *)
Lemma process_news_data_stored news_data w w' :
  process_news_data news_data w = (Ok true, w') -> Forall stored_record (all_insights w').
Proof.
  unfold process_news_data, mbind, M_bind, lift, modify, mret, M_ret.
  destruct (py_iter news_data) as [articles|e]; [|discriminate].
  destruct (collect_urls articles []) as [urls|e]; [|discriminate].
  destruct (negb (py_truthy (PList urls))); [discriminate|].
  destruct (analyze_articles urls 1 (reset_aggregates w)) as [[[]|e] w1] eqn:Hrun;
    [|discriminate].
  intros [= <-]. apply analyze_articles_stored in Hrun as (rs & Hrs & Hall).
  simpl in Hrs. now rewrite Hrs.
Qed.

Lemma summarize_stored rs : forall acc,
  Forall stored_record rs ->
  Forall (fun r => iterable (record_field "insights" r)) rs ->
  exists insight_summary, summarize rs acc = Ok insight_summary.
Proof.
  induction rs as [|r rs IH]; intros acc Hstored Hiter; simpl; [eauto|].
  apply Forall_cons in Hstored as [(url & i & k & t & ps & es & -> & _ & _) Hstored].
  apply Forall_cons in Hiter as [[points Hpoints] Hiter].
  simpl in Hpoints. simpl. rewrite Hpoints. simpl. now apply IH.
Qed.

(** A string equals only strings, so the aggregate holds only strings
    exactly when its input does. *)
Lemma first_seen_strings l : Forall is_string (first_seen l) <-> Forall is_string l.
Proof.
  rewrite !Forall_forall. split.
  - intros Hagg v Hv. apply list_elem_of_In in Hv.
    destruct (first_seen_covers l v Hv) as (e & He & Hev).
    apply list_elem_of_In in He. specialize (Hagg e He).
    destruct Hev as [->|Heq]; [exact Hagg|].
    unfold is_string in Hagg. destruct e; try discriminate Hagg.
    apply py_eq_str_l in Heq. now subst.
  - intros Hin v Hv. apply Hin. apply list_elem_of_In. apply first_seen_In.
    now apply list_elem_of_In.
Qed.

(** X12.  After a research action that returned [True], with records
    whose [insights] fields can be iterated: when all key players and
    all normalized ticker symbols of the records are strings,
    [generate_brain_rot_explanation] sends exactly one request; when
    one of them is not a string (a key player given as an object, a
    numeric symbol) it raises [TypeError] without sending a request. *)
Theorem narration_after_research news_data w w' :
  process_news_data news_data w = (Ok true, w') ->
  Forall (fun r => iterable (record_field "insights" r)) (all_insights w') ->
  let strings := Forall is_string (players_of (all_insights w'))
                 /\ Forall is_string (ticker_symbols_of (all_insights w')) in
  (strings ->
   exists prompt,
     generate_brain_rot_explanation w'
     = (match responses_create (llm_calls w') (mkRequest "gpt-4o" PNone (InputText prompt)) with
        | Ok response => Ok (output_text response)
        | Raise e => Raise e
        end,
        set_llm_calls (S (llm_calls w')) w'))
  /\ (~ strings ->
      generate_brain_rot_explanation w'
      = (Raise (TypeError "sequence item: expected str instance"), w')).
Proof.
  intros Hrun Hiter strings.
  pose proof (process_news_data_stored _ _ _ Hrun) as Hstored.
  destruct (summarize_stored _ [] Hstored Hiter) as [insight_summary Hsummary].
  apply process_news_data_true in Hrun as (_ & _ & _ & _ & _ & _ & [Hkp Htk] & _).
  assert (strings <-> Forall is_string (all_key_players w') /\ Forall is_string (all_tickers w'))
    as Hiff by (subst strings; now rewrite Hkp, Htk, !first_seen_strings).
  split.
  - intros Hs. apply Hiff in Hs as [Hp Ht].
    destruct (generate_sends w' insight_summary Hsummary Hp Ht) as (prompt & _ & Hgen).
    now exists prompt.
  - intros Hs. apply (generate_type_error w' insight_summary Hsummary). now rewrite <- Hiff.
Qed.

End Stored.

(** ** Displaying the insights *)

Section Display.
Context `{External}.

Lemma display_ticker_listed t :
  display_ticker t
  = Ok (match listed_ticker t with Some v => [ShownTicker v] | None => [] end).
Proof.
  destruct t as [| | |s|l|d]; try reflexivity.
  unfold display_ticker. simpl. unfold dict_has.
  destruct (dict_lookup "ticker" d); reflexivity.
Qed.

Lemma show_each_display_ticker elems :
  show_each display_ticker elems = Ok (map ShownTicker (omap listed_ticker elems)).
Proof.
  induction elems as [|t elems IH]; simpl; [reflexivity|].
  rewrite display_ticker_listed, IH. simpl.
  destruct (listed_ticker t); reflexivity.
Qed.

Lemma falsy_elements v : py_truthy v = false -> elements v = [].
Proof.
  destruct v as [| | |s|l|d]; try reflexivity; simpl.
  - destruct s; [reflexivity|discriminate].
  - destruct l; [reflexivity|discriminate].
  - destruct d; [reflexivity|discriminate].
Qed.

(** When the loop body completes it has printed [article_lines], and
    the [insights] field could be iterated. *)
Lemma display_article_lines index r lines :
  display_article index r = Ok lines ->
  lines = article_lines index r /\ iterable (record_field "insights" r).
Proof.
  unfold display_article, article_lines, iterable.
  destruct r as [| | | | |d]; try discriminate. simpl.
  destruct (dict_lookup "url" d) as [url|]; [|discriminate]. simpl.
  destruct (dict_lookup "insights" d) as [insights|]; [|discriminate]. simpl.
  unfold elements at 1.
  destruct (py_iter insights) as [points|e]; [|discriminate]. simpl.
  destruct (dict_lookup "key_players" d) as [kp|]; [|discriminate]. simpl.
  destruct (py_truthy kp) eqn:Hkp.
  - unfold elements at 1. destruct (py_iter kp) as [players|e]; [|discriminate]. simpl.
    destruct (dict_lookup "tickers" d) as [tk|]; [|discriminate]. simpl.
    destruct (py_truthy tk) eqn:Htk.
    + unfold elements. destruct (py_iter tk) as [elems|e]; [|discriminate]. simpl.
      rewrite show_each_display_ticker. simpl. intros [= <-]. eauto.
    + rewrite (falsy_elements tk Htk). simpl. intros [= <-]. eauto.
  - rewrite (falsy_elements kp Hkp). simpl.
    destruct (dict_lookup "tickers" d) as [tk|]; [|discriminate]. simpl.
    destruct (py_truthy tk) eqn:Htk.
    + unfold elements. destruct (py_iter tk) as [elems|e]; [|discriminate]. simpl.
      rewrite show_each_display_ticker. simpl. intros [= <-]. eauto.
    + rewrite (falsy_elements tk Htk). simpl. intros [= <-]. eauto.
Qed.

Lemma display_article_stored index r :
  stored_record r -> iterable (record_field "insights" r) ->
  display_article index r = Ok (article_lines index r).
Proof.
  intros (url & insights & kp & tk & players & elems & -> & Hkp & Htk) [points Hpoints].
  simpl in Hpoints. unfold display_article, article_lines. simpl.
  unfold elements. rewrite Hpoints, Hkp, Htk. simpl.
  rewrite show_each_display_ticker. simpl.
  destruct (py_truthy kp) eqn:Tkp, (py_truthy tk) eqn:Ttk; simpl.
  - reflexivity.
  - apply falsy_elements in Ttk. unfold elements in Ttk. rewrite Htk in Ttk. now subst.
  - apply falsy_elements in Tkp. unfold elements in Tkp. rewrite Hkp in Tkp. now subst.
  - apply falsy_elements in Tkp, Ttk. unfold elements in Tkp, Ttk.
    rewrite Hkp in Tkp. rewrite Htk in Ttk. now subst.
Qed.

Lemma display_articles_lines rs : forall index lines,
  display_articles rs index = Ok lines ->
  lines = articles_lines rs index
  /\ Forall (fun r => iterable (record_field "insights" r)) rs.
Proof.
  induction rs as [|r rs IH]; intros index lines; simpl.
  - intros [= <-]. split; [reflexivity|constructor].
  - destruct (display_article index r) as [here|e] eqn:Hhere; [|discriminate]. simpl.
    destruct (display_articles rs (S index)) as [more|e] eqn:Hmore; [|discriminate]. simpl.
    intros [= <-]. apply display_article_lines in Hhere as [-> Hiter].
    apply IH in Hmore as [-> Hall]. split; [reflexivity|now constructor].
Qed.

Lemma display_articles_stored rs : forall index,
  Forall stored_record rs ->
  Forall (fun r => iterable (record_field "insights" r)) rs ->
  display_articles rs index = Ok (articles_lines rs index).
Proof.
  induction rs as [|r rs IH]; intros index Hstored Hiter; simpl; [reflexivity|].
  apply Forall_cons in Hstored as [Hr Hstored]. apply Forall_cons in Hiter as [Hi Hiter].
  rewrite display_article_stored by assumption. simpl.
  rewrite IH by assumption. reflexivity.
Qed.

(** X13.  After a research action that returned [True],
    [display_insights] on the session aggregates completes exactly when
    the [insights] field of every stored record can be iterated;
    [process_news_data] never iterates that field, so a record whose
    insights are, say, a number completes the aggregation and makes the
    display raise. *)
Theorem display_insights_after_research news_data w w' :
  process_news_data news_data w = (Ok true, w') ->
  (exists lines,
     display_insights (all_insights w') (all_key_players w') (all_tickers w') = Ok lines)
  <-> Forall (fun r => iterable (record_field "insights" r)) (all_insights w').
Proof.
  intros Hrun. apply process_news_data_stored in Hrun. unfold display_insights. split.
  - intros [lines Hlines].
    destruct (display_articles (all_insights w') 1) as [articles|e] eqn:Harticles;
      [|discriminate].
    now apply display_articles_lines in Harticles as [_ Hall].
  - intros Hiter. rewrite display_articles_stored by assumption. simpl. eauto.
Qed.

Lemma articles_lines_tickers rs : forall index v,
  In (ShownTicker v) (articles_lines rs index)
  <-> exists r t, In r rs /\ In t (elements (record_field "tickers" r))
                  /\ listed_ticker t = Some v.
Proof.
  induction rs as [|r rs IH]; intros index v; simpl.
  - split; [tauto|]. intros (r & t & Hr & _). inversion Hr.
  - rewrite in_app_iff, IH. unfold article_lines. simpl.
    rewrite !in_app_iff, !in_map_iff. split.
    + intros [Hhead|[[(x & Hx & _)|[(x & Hx & _)|(x & Hx & Hin)]]|(r' & t & Hr & Ht)]];
        try discriminate.
      * injection Hx as ->. apply list_elem_of_In, list_elem_of_omap in Hin as (t & Ht & Hl).
        exists r, t. split; [now left|]. split; [now apply list_elem_of_In|exact Hl].
      * exists r', t. split; [now right|exact Ht].
    + intros (r' & t & [<-|Hr] & Ht & Hl).
      * right. left. right. right. exists v. split; [reflexivity|].
        apply list_elem_of_In, list_elem_of_omap. exists t.
        split; [now apply list_elem_of_In|exact Hl].
      * right. right. exists r', t. auto.
Qed.

Lemma articles_lines_no_summary rs : forall index v,
  ~ In (SummaryTicker v) (articles_lines rs index).
Proof.
  induction rs as [|r rs IH]; intros index v; simpl; [tauto|].
  rewrite in_app_iff. unfold article_lines. simpl.
  rewrite !in_app_iff, !in_map_iff.
  intros [Hhead|[[(x & Hx & _)|[(x & Hx & _)|(x & Hx & _)]]|Hrest]]; try discriminate.
  now apply IH in Hrest.
Qed.

(** X14.  When [display_insights] completes, the tickers it lists in
    the article sections are the ticker elements that are strings and
    the [ticker] items of those that are dicts, and the tickers of its
    summary are the entries of the aggregate it was given.  A dict with
    only a [symbol] item is listed in no article section, and a dict
    with both items is listed by its [ticker] item, while
    [process_news_data] puts the [symbol] item into the aggregate. *)
Theorem display_insights_tickers insights key_players tickers lines :
  display_insights insights key_players tickers = Ok lines ->
  (forall v, In (ShownTicker v) lines
             <-> exists r t, In r insights /\ In t (elements (record_field "tickers" r))
                             /\ listed_ticker t = Some v)
  /\ (forall v, In (SummaryTicker v) lines <-> In v tickers)
  /\ (forall d symbol, dict_lookup "symbol" d = Some symbol ->
        normalize_ticker (PDict d) = Some symbol
        /\ listed_ticker (PDict d) = dict_lookup "ticker" d).
Proof.
  unfold display_insights.
  destruct (display_articles insights 1) as [articles|e] eqn:Harticles; [|discriminate].
  simpl. intros [= <-]. apply display_articles_lines in Harticles as [-> _].
  split; [|split].
  - intros v. rewrite !in_app_iff, articles_lines_tickers, !in_map_iff. split.
    + intros [Hin|[(x & Hx & _)|(x & Hx & _)]]; [exact Hin|discriminate..].
    + intros Hin. now left.
  - intros v. rewrite !in_app_iff, !in_map_iff. split.
    + intros [Hin|[(x & Hx & _)|(x & Hx & Hin)]].
      * now apply articles_lines_no_summary in Hin.
      * discriminate.
      * now injection Hx as ->.
    + intros Hin. right. right. now exists v.
  - intros d symbol Hsym. simpl. now rewrite Hsym.
Qed.

End Display.

(** ** Displaying the prices *)

Section Prices.
Context `{External}.

Lemma set_llm_calls_zero w : set_llm_calls (llm_calls w + 0) w = w.
Proof. destruct w. unfold set_llm_calls. simpl. now rewrite Nat.add_0_r. Qed.

(** What a completed loop over the tickers has done: between one and
    two LLM calls for every ticker that is true, one price line for
    each of them in order, and analyses taken from [ticker_analyses]. *)
Lemma show_prices_ok ticker_analyses tickers : forall w lines w',
  show_prices ticker_analyses tickers w = (Ok lines, w') ->
  let count := length (List.filter py_truthy tickers) in
  (exists j, (count <= j <= 2 * count)%nat /\ w' = set_llm_calls (llm_calls w + j) w)
  /\ omap priced_ticker lines = List.filter py_truthy tickers
  /\ forall a, In (ShownAnalysis a) lines -> In a (map snd ticker_analyses).
Proof.
  induction tickers as [|ticker rest IH]; intros w lines w'; simpl.
  - intros [= <- <-]. split; [exists 0%nat; split; [lia|]; now rewrite set_llm_calls_zero|].
    split; [reflexivity|]. intros a [].
  - destruct (py_truthy ticker) eqn:Htruthy; [|apply IH].
    unfold mbind at 1, M_bind at 1.
    destruct (get_stock_info_with_api ticker w) as [[stock_info|e] w1] eqn:Hinfo;
      [|discriminate].
    unfold mbind at 1, M_bind at 1, lift at 1.
    destruct (pydict_contains ticker_analyses ticker) as [known|e] eqn:Hknown;
      [|discriminate].
    unfold mbind at 1, M_bind at 1, lift at 1.
    destruct (if known then _ else _) as [analysis|e] eqn:Hanalysis; [|discriminate].
    unfold mbind at 1, M_bind at 1.
    destruct (show_prices ticker_analyses rest w1) as [[more|e] w2] eqn:Hmore;
      [|discriminate].
    intros [= <- <-]. apply IH in Hmore as ((j & Hj & ->) & Hpriced & Hfrom).
    split; [|split].
    + apply get_stock_info_with_api_world in Hinfo as [-> | ->]; simpl.
      * exists (S j). split; [lia|]. unfold set_llm_calls. simpl. f_equal. lia.
      * exists (S (S j)). split; [lia|]. unfold set_llm_calls. simpl. f_equal. lia.
    + simpl. f_equal. rewrite omap_app, Hpriced.
      replace (omap priced_ticker analysis) with (@nil pyval); [reflexivity|].
      destruct known; [|now injection Hanalysis as <-].
      destruct (pydict_getitem ticker_analyses ticker); [|discriminate].
      now injection Hanalysis as <-.
    + intros a [Ha|Ha]; [discriminate|]. apply in_app_iff in Ha as [Ha|Ha]; [|now apply Hfrom].
      destruct known; [|injection Hanalysis as <-; destruct Ha].
      unfold pydict_getitem in Hanalysis. destruct (hashable ticker); [|discriminate].
      destruct (items_lookup ticker ticker_analyses) as [found|] eqn:Hfound; [|discriminate].
      injection Hanalysis as <-. destruct Ha as [[= <-]|[]].
      clear -Hfound. induction ticker_analyses as [|[k v] d IHd]; [discriminate|].
      simpl in *. destruct (py_eq k ticker); [injection Hfound as ->; now left|].
      right. now apply IHd.
Qed.

Lemma items_store_values k v d a :
  In a (map snd (items_store k v d)) -> a = v \/ In a (map snd d).
Proof.
  induction d as [|[k' v'] d IH]; simpl.
  - intros [<-|[]]. now left.
  - destruct (py_eq k' k); simpl.
    + intros [<-|Ha]; auto.
    + intros [<-|Ha]; [auto|]. apply IH in Ha as [->|Ha]; auto.
Qed.

(** An analysis kept by the inner loop was there before or is the
    [analysis] item of a dict that also has a [ticker] item. *)
Lemma scan_ticker_items_values items : forall acc out a,
  scan_ticker_items items acc = Ok out ->
  In a (map snd out) ->
  In a (map snd acc)
  \/ exists d, In (PDict d) items /\ is_Some (dict_lookup "ticker" d)
               /\ dict_lookup "analysis" d = Some a.
Proof.
  induction items as [|item items IH]; intros acc out a; simpl.
  - intros [= <-]. now left.
  - assert (forall rest_ok : scan_ticker_items items acc = Ok out,
              In a (map snd out) ->
              In a (map snd acc)
              \/ exists d, (item = PDict d \/ In (PDict d) items)
                           /\ is_Some (dict_lookup "ticker" d)
                           /\ dict_lookup "analysis" d = Some a) as Hskip.
    { intros Hrest Ha. destruct (IH _ _ _ Hrest Ha) as [Hacc|(d & Hd & Hrest')]; [now left|].
      right. exists d. tauto. }
    destruct item as [| | | | |d]; simpl; try exact Hskip.
    unfold dict_has.
    destruct (dict_lookup "ticker" d) as [ticker_symbol|] eqn:Hticker; simpl;
      [|exact Hskip].
    destruct (dict_lookup "analysis" d) as [analysis|] eqn:Hanalysis; simpl;
      [|exact Hskip].
    unfold pydict_setitem. destruct (hashable ticker_symbol); simpl; [|discriminate].
    intros Hrest Ha.
    destruct (IH _ _ _ Hrest Ha) as [Hacc|(d' & Hd' & Hrest')].
    + apply items_store_values in Hacc as [->|Hacc]; [|now left].
      right. exists d. rewrite Hticker. eauto.
    + right. exists d'. tauto.
Qed.

Lemma collect_analyses_values insights : forall acc out a,
  collect_analyses insights acc = Ok out ->
  In a (map snd out) ->
  In a (map snd acc)
  \/ exists r d, In r insights /\ In (PDict d) (elements (record_field "tickers" r))
                 /\ is_Some (dict_lookup "ticker" d)
                 /\ dict_lookup "analysis" d = Some a.
Proof.
  induction insights as [|insight insights IH]; intros acc out a; simpl.
  - intros [= <-]. now left.
  - destruct (py_get insight "tickers" (PList [])) as [tickers|e] eqn:Hget; [|discriminate].
    apply py_get_record_field in Hget as ->. simpl.
    destruct (py_iter (record_field "tickers" insight)) as [items|e] eqn:Hitems;
      [|discriminate]. simpl.
    destruct (scan_ticker_items items acc) as [mid|e] eqn:Hscan; [|discriminate]. simpl.
    intros Hrest Ha.
    destruct (IH _ _ _ Hrest Ha) as [Hmid|(r & d & Hr & Hd)].
    + destruct (scan_ticker_items_values _ _ _ _ Hscan Hmid) as [Hacc|(d & Hd & Hrest')];
        [now left|].
      right. exists insight, d. split; [now left|].
      unfold elements. now rewrite Hitems.
    + right. exists r, d. tauto.
Qed.

Lemma display_stock_prices_inv tickers w lines w' :
  tickers <> [] ->
  display_stock_prices tickers w = (Ok lines, w') ->
  exists ticker_analyses w1 line rest,
    collect_analyses (all_insights w) [] = Ok ticker_analyses
    /\ show_prices ticker_analyses tickers w = (Ok lines, w1)
    /\ stdin w1 = line :: rest
    /\ w' = set_stdin rest w1.
Proof.
  intros Hne. unfold display_stock_prices.
  replace (negb (py_truthy (PList tickers))) with false by (now destruct tickers).
  unfold mbind, M_bind, mret, M_ret, lift, gets, input_line.
  destruct (collect_analyses (all_insights w) []) as [ticker_analyses|e]; [|discriminate].
  destruct (show_prices ticker_analyses tickers w) as [[prices|e] w1] eqn:Hshow;
    [|discriminate].
  destruct (stdin w1) as [|line rest] eqn:Hin; [discriminate|].
  intros [= <- <-]. exists ticker_analyses, w1, line, rest. auto 10.
Qed.

(** X15.  [display_stock_prices] on an empty list returns at once: it
    makes no LLM call and does not wait for Enter.  On a non-empty list
    a completed call has shown one price for every ticker that is true
    (empty strings, zero and null are skipped), in order, has made
    between one and two LLM calls for each of them, has read exactly
    one line, and has changed nothing else. *)
Theorem display_stock_prices_completed tickers w lines w' :
  display_stock_prices tickers w = (Ok lines, w') ->
  let count := length (List.filter py_truthy tickers) in
  omap priced_ticker lines = List.filter py_truthy tickers
  /\ (tickers = [] -> lines = [] /\ w' = w)
  /\ (tickers <> [] ->
      exists line rest j,
        stdin w = line :: rest
        /\ (count <= j <= 2 * count)%nat
        /\ w' = set_stdin rest (set_llm_calls (llm_calls w + j) w)).
Proof.
  intros Hrun count. destruct tickers as [|ticker tickers].
  - injection Hrun as <- <-. split; [reflexivity|]. split; [auto|congruence].
  - apply display_stock_prices_inv in Hrun as (ta & w1 & line & rest & _ & Hshow & Hin & ->);
      [|discriminate].
    apply show_prices_ok in Hshow as ((j & Hj & ->) & Hpriced & _).
    split; [exact Hpriced|]. split; [discriminate|].
    intros _. exists line, rest, j. auto.
Qed.

(** X16.  Every analysis [display_stock_prices] shows is the
    [analysis] item of a ticker element of a stored record that is a
    dict with a [ticker] item; the analysis of an element that names
    its ticker under [symbol] only is never shown. *)
Theorem display_stock_prices_analyses tickers w lines w' a :
  display_stock_prices tickers w = (Ok lines, w') ->
  In (ShownAnalysis a) lines ->
  exists r d,
    In r (all_insights w)
    /\ In (PDict d) (elements (record_field "tickers" r))
    /\ is_Some (dict_lookup "ticker" d)
    /\ dict_lookup "analysis" d = Some a.
Proof.
  intros Hrun Ha. destruct tickers as [|ticker tickers].
  - injection Hrun as <- <-. destruct Ha.
  - apply display_stock_prices_inv in Hrun
      as (ta & w1 & line & rest & Hcollect & Hshow & _ & _); [|discriminate].
    apply show_prices_ok in Hshow as (_ & _ & Hfrom).
    apply Hfrom in Ha.
    destruct (collect_analyses_values _ _ _ _ Hcollect Ha) as [[]|Hfound].
    exact Hfound.
Qed.

End Prices.

(** ** The menu actions *)

Section Actions.
Context `{External} `{Platform}.

(** [do_research] once the query is read and the news request is
    answered: the [try] block runs on the text of the answer. *)
Lemma do_research_answered w user_query rest response :
  stdin w = user_query :: rest ->
  user_query <> EmptyString ->
  responses_create (llm_calls w) (news_request user_query) = Ok response ->
  do_research w
  = try_except_M
      (news_data ← lift (loads (output_text response));
       found ← process_news_data news_data;
       if found : bool then
         insights ← gets all_insights;
         key_players ← gets all_key_players;
         tickers ← gets all_tickers;
         _ ← lift (display_insights insights key_players tickers);
         choice ← input_line;
         if is_yes choice then
           tickers ← gets all_tickers;
           _ ← display_stock_prices tickers;
           mret tt
         else mret tt
       else mret tt)
      (fun e => if is_JSONDecodeError e then mret tt else lift (Raise e))
      (set_llm_calls (S (llm_calls w)) (set_stdin rest w)).
Proof.
  intros Hin Hquery Hresponse. apply String.eqb_neq in Hquery.
  unfold do_research. unfold mbind at 1, M_bind at 1, input_line at 1. rewrite Hin.
  cbn [py_truthy negb]. rewrite Hquery. cbn [negb].
  unfold mbind at 1, M_bind at 1, find_news_stories, llm_create.
  unfold mbind at 1, M_bind at 1. fold (news_request user_query).
  cbn [llm_calls set_stdin]. rewrite Hresponse. reflexivity.
Qed.

(** X17.  The paths of [do_research] that keep the results of the
    previous research: an empty query returns after reading one line,
    with no LLM call; an answer that [json.loads] refuses, and an
    answer that is a list in which no element has a URL, end after the
    one LLM call, read nothing more and leave the aggregates as they
    were.  The list without URLs returns normally; the refused answer
    returns normally when the refusal is a [JSONDecodeError], and
    raises the exception of [json.loads] when it is another one
    ([ValueError] for an integer over the digit limit,
    [RecursionError] for too deep a nesting). *)
Theorem do_research_keeps_results w user_query rest :
  stdin w = user_query :: rest ->
  (user_query = EmptyString -> do_research w = (Ok tt, set_stdin rest w))
  /\ (forall response,
        user_query <> EmptyString ->
        responses_create (llm_calls w) (news_request user_query) = Ok response ->
        let w1 := set_llm_calls (S (llm_calls w)) (set_stdin rest w) in
        (json_loads (output_text response) = None ->
         do_research w
         = (if is_JSONDecodeError (loads_error (output_text response))
            then Ok tt
            else Raise (loads_error (output_text response)), w1))
        /\ (forall articles,
              json_loads (output_text response) = Some (PList articles) ->
              (forall a, In a articles -> str_in "url" a = Ok false) ->
              do_research w = (Ok tt, w1))).
Proof.
  intros Hin. split.
  - intros ->. unfold do_research, mbind, M_bind, input_line. now rewrite Hin.
  - intros response Hquery Hresponse w1.
    rewrite (do_research_answered w user_query rest response Hin Hquery Hresponse).
    fold w1. unfold try_except_M, loads. split.
    + intros Hbody. unfold mbind at 1, M_bind at 1, lift at 1. rewrite Hbody.
      destruct (is_JSONDecodeError (loads_error (output_text response))); reflexivity.
    + intros articles Hbody Hno. unfold mbind at 1, M_bind at 1, lift at 1. rewrite Hbody.
      unfold mbind at 1, M_bind at 1.
      assert (process_news_data (PList articles) w1 = (Ok false, w1)) as ->; [|reflexivity].
      unfold process_news_data. run. now rewrite collect_urls_none.
Qed.

(** X18.  The failures of [do_research].  The news request is made
    outside the [try]: an exception of the LLM client propagates.
    Inside it only [JSONDecodeError] is caught: when
    [process_news_data] raises anything else (a [KeyError] for a
    missing title, an [AttributeError] for an extraction that is not an
    object) the exception leaves [do_research], in the state
    [process_news_data] left. *)
Theorem do_research_failures w user_query rest :
  stdin w = user_query :: rest ->
  user_query <> EmptyString ->
  let w1 := set_llm_calls (S (llm_calls w)) (set_stdin rest w) in
  (forall e, responses_create (llm_calls w) (news_request user_query) = Raise e ->
     do_research w = (Raise e, w1))
  /\ (forall response news_data e w2,
        responses_create (llm_calls w) (news_request user_query) = Ok response ->
        json_loads (output_text response) = Some news_data ->
        process_news_data news_data w1 = (Raise e, w2) ->
        do_research w = (if is_JSONDecodeError e then Ok tt else Raise e, w2)).
Proof.
  intros Hin Hquery w1. split.
  - intros e Hraise. apply String.eqb_neq in Hquery.
    unfold do_research. unfold mbind at 1, M_bind at 1, input_line at 1. rewrite Hin.
    cbn [py_truthy negb]. rewrite Hquery. cbn [negb].
    unfold mbind at 1, M_bind at 1, find_news_stories, llm_create.
    unfold mbind at 1, M_bind at 1. fold (news_request user_query).
    cbn [llm_calls set_stdin]. rewrite Hraise. reflexivity.
  - intros response news_data e w2 Hresponse Hbody Hrun.
    rewrite (do_research_answered w user_query rest response Hin Hquery Hresponse).
    fold w1. unfold try_except_M, loads.
    unfold mbind at 1, M_bind at 1, lift at 1. rewrite Hbody.
    unfold mbind at 1, M_bind at 1. rewrite Hrun.
    destruct (is_JSONDecodeError e); reflexivity.
Qed.

(** X19.  When the research action has found URLs and its results
    have been displayed, [do_research] reads one answer.  Any answer
    but [y] or [Y] ends it.  On [y] the prices are displayed inside the
    same [try]: [do_research] ends in the state the display left,
    normally when the display completes and also when it raises
    [JSONDecodeError] (the arguments of a function call that do not
    parse), which the handler meant for the news text catches; any
    other exception propagates. *)
Theorem do_research_found w user_query rest response news_data w2 lines choice rest2 :
  stdin w = user_query :: rest ->
  user_query <> EmptyString ->
  responses_create (llm_calls w) (news_request user_query) = Ok response ->
  json_loads (output_text response) = Some news_data ->
  process_news_data news_data (set_llm_calls (S (llm_calls w)) (set_stdin rest w))
  = (Ok true, w2) ->
  display_insights (all_insights w2) (all_key_players w2) (all_tickers w2) = Ok lines ->
  stdin w2 = choice :: rest2 ->
  let w3 := set_stdin rest2 w2 in
  (is_yes choice = false -> do_research w = (Ok tt, w3))
  /\ (is_yes choice = true ->
      forall r w4, display_stock_prices (all_tickers w2) w3 = (r, w4) ->
        do_research w
        = (match r with
           | Ok _ => Ok tt
           | Raise e => if is_JSONDecodeError e then Ok tt else Raise e
           end, w4)).
Proof.
  intros Hin Hquery Hresponse Hbody Hrun Hshow Hchoice w3.
  assert (do_research w
          = if is_yes choice
            then let (r, w4) := display_stock_prices (all_tickers w2) w3 in
                 (match r with
                  | Ok _ => Ok tt
                  | Raise e => if is_JSONDecodeError e then Ok tt else Raise e
                  end, w4)
            else (Ok tt, w3)) as Hgo.
  { rewrite (do_research_answered w user_query rest response Hin Hquery Hresponse).
    unfold try_except_M, loads.
    unfold mbind at 1, M_bind at 1, lift at 1. rewrite Hbody.
    unfold mbind at 1, M_bind at 1. rewrite Hrun.
    unfold mbind, M_bind, gets, lift, input_line, mret, M_ret.
    rewrite Hshow, Hchoice. fold w3.
    destruct (is_yes choice); [|reflexivity].
    change (all_tickers w3) with (all_tickers w2).
    destruct (display_stock_prices (all_tickers w2) w3) as [[shown_lines|e] w4];
      [reflexivity|].
    destruct (is_JSONDecodeError e); reflexivity. }
  rewrite Hgo. split.
  - intros ->. reflexivity.
  - intros -> r w4 ->. reflexivity.
Qed.

(** X20.  [lookup_stock] with a line that is blank once stripped
    returns after reading it, with no LLM call.  Otherwise a completed
    lookup has made one or two LLM calls, has read one more line (the
    Enter) and has left the aggregates and the files as they were. *)
Theorem lookup_stock_frame w line rest :
  stdin w = line :: rest ->
  (strip_upper line = EmptyString -> lookup_stock w = (Ok tt, set_stdin rest w))
  /\ (forall w', strip_upper line <> EmptyString ->
        lookup_stock w = (Ok tt, w') ->
        exists enter rest' j,
          rest = enter :: rest'
          /\ (1 <= j <= 2)%nat
          /\ w' = set_stdin rest' (set_llm_calls (llm_calls w + j) w)).
Proof.
  intros Hin. split.
  - intros Hblank. unfold lookup_stock, mbind, M_bind, input_line.
    rewrite Hin. cbv zeta. now rewrite Hblank.
  - intros w' Hticker. apply String.eqb_neq in Hticker.
    unfold lookup_stock. unfold mbind at 1, M_bind at 1, input_line at 1.
    rewrite Hin. cbv zeta. cbn [py_truthy]. rewrite Hticker. cbn [negb].
    unfold mbind at 1, M_bind at 1.
    destruct (get_stock_info_with_api (PStr (strip_upper line)) (set_stdin rest w))
      as [[stock_info|e] w1] eqn:Hinfo; [|discriminate].
    unfold mbind, M_bind, input_line, mret, M_ret.
    apply get_stock_info_with_api_world in Hinfo as [-> | ->]; simpl;
      destruct rest as [|enter rest']; try discriminate; intros [= <-].
    + exists enter, rest', 1%nat. split; [reflexivity|]. split; [lia|].
      unfold set_stdin, set_llm_calls. simpl. f_equal. lia.
    + exists enter, rest', 2%nat. split; [reflexivity|]. split; [lia|].
      unfold set_stdin, set_llm_calls. simpl. f_equal. lia.
Qed.

End Actions.

(** ** The background video *)

(** X21.  [get_subway_surfers_video] never raises and changes nothing;
    it returns one of the two expected names, the plain one whenever
    that file exists, and the file it names exists whenever one of the
    two does. *)
Theorem get_subway_surfers_video_found w :
  exists path,
    get_subway_surfers_video w = (Ok path, w)
    /\ (path = "subway_surfers.mp4" \/ path = "subway_surfers.mp4.mp4")
    /\ (path_exists "subway_surfers.mp4" w = true -> path = "subway_surfers.mp4")
    /\ (path_exists path w = true
        <-> path_exists "subway_surfers.mp4" w = true
            \/ path_exists "subway_surfers.mp4.mp4" w = true).
Proof.
  unfold get_subway_surfers_video.
  destruct (path_exists "subway_surfers.mp4" w) eqn:Hplain.
  - exists "subway_surfers.mp4". rewrite Hplain. tauto.
  - destruct (path_exists "subway_surfers.mp4.mp4" w) eqn:Hdouble.
    + exists "subway_surfers.mp4.mp4". rewrite Hdouble.
      repeat split; auto; discriminate.
    + exists "subway_surfers.mp4". rewrite Hplain.
      repeat split; auto; intros; try discriminate; tauto.
Qed.

(** ** These properties on concrete runs *)

Import Cases.

Lemma process_news_data_one_call_per_url_witness :
  exists w',
    @process_news_data research news previous = (Ok true, w')
    /\ llm_calls w' = 2%nat
    /\ map (record_field "url") (all_insights w')
       = [PStr "https://a.example/1"; PStr "https://a.example/2"].
Proof.
  eexists. split; [vm_compute; reflexivity|].
  destruct (process_news_data_one_call_per_url (H := research) news previous _
              ltac:(vm_compute; reflexivity)) as (_ & Hcalls & Hurls).
  split; [exact Hcalls|exact Hurls].
Defined.

Lemma process_news_data_missing_title_witness :
  @process_news_data research (PList [linked; PDict untitled; linked]) previous
  = (Raise (KeyError "title"), previous).
Proof.
  refine (process_news_data_missing_title (H := research) [linked] untitled [linked]
            (PStr "https://a.example/2") [PStr "https://a.example/1"] previous _ _ _);
    reflexivity.
Defined.

Lemma process_news_data_fails_after_reset_witness :
  @process_news_data unreachable (PList [linked]) previous
  = (Raise (RequestError "connection refused"), mkWorld [] [] [] 1 [] ∅)
  /\ @process_news_data answers_list (PList [linked]) previous
     = (Raise (AttributeError "get"), mkWorld [] [] [] 1 [] ∅)
  /\ @process_news_data answers_null_players (PList [linked]) previous
     = (Raise (TypeError "object is not iterable"),
        mkWorld [insight_record (PStr "https://a.example/1") (PList []) PNone
                   (PList [PStr "NVDA"])] [] [] 1 [] ∅).
Proof.
  split; [|split].
  - refine (proj1 (process_news_data_fails_after_reset (H := unreachable)
                     (PList [linked]) [linked] (PStr "https://a.example/1") [] previous _ _)
              (RequestError "connection refused") _); reflexivity.
  - refine (proj1 (proj2 (process_news_data_fails_after_reset (H := answers_list)
                     (PList [linked]) [linked] (PStr "https://a.example/1") [] previous _ _))
              (PList [PStr "NVDA"]) _ _); reflexivity.
  - refine (proj2 (proj2 (process_news_data_fails_after_reset (H := answers_null_players)
                     (PList [linked]) [linked] (PStr "https://a.example/1") [] previous _ _))
              null_players (TypeError "object is not iterable") _ _ _); reflexivity.
Defined.

Lemma get_stock_info_with_api_frame_witness :
  exists w',
    @get_stock_info_with_api (quoting (PStr "187.50") tool_replies) (PStr "AAPL") previous
    = (Ok "AAPL trades at 187.50.", w')
    /\ all_tickers w' = [PStr "SPY"].
Proof.
  eexists. split; [vm_compute; reflexivity|].
  destruct (get_stock_info_with_api_frame (H := quoting (PStr "187.50") tool_replies)
              (PStr "AAPL") previous _ _ ltac:(vm_compute; reflexivity))
    as (_ & _ & _ & Htickers & _).
  exact Htickers.
Defined.

Lemma get_stock_info_with_api_bad_arguments_witness :
  @get_stock_info_with_api garbled_arguments (PStr "AAPL") (start [])
  = (Raise JSONDecodeError, set_llm_calls 1 (start []))
  /\ @get_stock_info_with_api list_arguments (PStr "AAPL") (start [])
     = (Raise (AttributeError "get"), set_llm_calls 1 (start [])).
Proof.
  split.
  - refine (proj1 (get_stock_info_with_api_bad_arguments (H := garbled_arguments)
                     (PStr "AAPL") (start [])
                     (mkLLMResponse [mkItem "reasoning" EmptyString EmptyString EmptyString;
                                     stock_call] EmptyString)
                     [mkItem "reasoning" EmptyString EmptyString EmptyString] stock_call []
                     _ _ _ _) _); try reflexivity.
    intros c [<-|[]]; reflexivity.
  - refine (proj2 (get_stock_info_with_api_bad_arguments (H := list_arguments)
                     (PStr "AAPL") (start [])
                     (mkLLMResponse [mkItem "reasoning" EmptyString EmptyString EmptyString;
                                     stock_call] EmptyString)
                     [mkItem "reasoning" EmptyString EmptyString EmptyString] stock_call []
                     _ _ _ _) (PList [PStr "AAPL"]) _ _); try reflexivity.
    intros c [<-|[]]; reflexivity.
Defined.

Lemma get_eleven_labs_voices_cases_witness :
  @get_eleven_labs_voices unreachable = Ok PNone
  /\ @get_eleven_labs_voices (studio offline) = Ok (PList [rachel; adam])
  /\ @get_eleven_labs_voices empty_catalogue = Ok (PList []).
Proof.
  split; [|split].
  - refine (proj1 (get_eleven_labs_voices_cases (H := unreachable)) _). reflexivity.
  - refine (proj2 (proj2 (proj2 (proj2
              (proj2 (get_eleven_labs_voices_cases (H := studio offline)) _))))
              (mkResponse 200 "catalogue") [("voices", PList [rachel; adam])] _ _ _);
      reflexivity.
  - refine (proj2 (proj2 (proj2 (proj2
              (proj2 (get_eleven_labs_voices_cases (H := empty_catalogue)) _))))
              (mkResponse 200 "catalogue") [("count", PInt 0)] _ _ _);
      reflexivity.
Defined.

Lemma select_voice_malformed_voice_witness :
  @select_voice broken_studio (start ["2"]) = (Raise (KeyError "name"), start ["2"]).
Proof.
  refine (proj1 (select_voice_malformed_voice (H := broken_studio) (start ["2"])
                   [rachel] nameless [] _ _) _); try reflexivity.
  repeat constructor. eexists _, _, _. repeat split; reflexivity.
Defined.

Lemma select_voice_end_of_input_witness :
  @select_voice (studio offline) (start []) = (Raise EOFError, start []).
Proof.
  refine (select_voice_end_of_input (H := studio offline) (start []) [rachel; adam] _ _ _ _);
    try reflexivity; try discriminate.
  repeat constructor; eexists _, _, _; repeat split; reflexivity.
Defined.

Lemma select_voice_returns_listed_witness :
  exists d,
    In (PDict d) [rachel; adam]
    /\ dict_lookup "voice_id" d = Some (PStr "pNInz6obpgDQGcFmaJgB").
Proof.
  destruct (select_voice_returns_listed (H := studio offline) (start ["2"])
              (PStr "pNInz6obpgDQGcFmaJgB") (start []) ltac:(reflexivity))
    as [[Hdefault|(listed & d & Hvoices & Hin & Hid)] _].
  - discriminate Hdefault.
  - vm_compute in Hvoices. injection Hvoices as <-. exists d. split; [exact Hin|exact Hid].
Defined.

Lemma text_to_speech_failures_witness :
  @text_to_speech unreachable "hello" "speech.mp3" (start ["2"]) = (Ok PNone, start ["2"])
  /\ @text_to_speech (read_only (studio (Ok (mkResponse 200 "ID3-audio"))))
       "hello" "speech.mp3" (start ["2"])
     = (Ok PNone, start []).
Proof.
  split.
  - refine (proj1 (text_to_speech_failures (H := unreachable) "hello" "speech.mp3"
                     (start ["2"])) _). reflexivity.
  - refine (proj2 (proj2 (text_to_speech_failures
                     (H := read_only (studio (Ok (mkResponse 200 "ID3-audio"))))
                     "hello" "speech.mp3" (start ["2"])))
              (PStr "pNInz6obpgDQGcFmaJgB") (start []) (mkResponse 200 "ID3-audio")
              (OSError "speech.mp3") _ _ _ _ _); reflexivity.
Defined.

Lemma forallb_is_string l : forallb isinstance_str l = true -> Forall is_string l.
Proof.
  induction l as [|x l IH]; simpl; [constructor|].
  intros Hall. apply andb_true_iff in Hall as [Hx Hl]. constructor; [exact Hx|now apply IH].
Qed.


Lemma narration_after_research_witness :
  exists w',
    @process_news_data narrated news (start []) = (Ok true, w')
    /\ @generate_brain_rot_explanation narrated w' = (Ok "no cap fr", set_llm_calls 3 w').
Proof.
  eexists. split; [vm_compute; reflexivity|].
  destruct (proj1 (narration_after_research (H := narrated) news (start []) _
                     ltac:(vm_compute; reflexivity)
                     ltac:(repeat constructor; eexists; reflexivity))
              ltac:(split; apply forallb_is_string; vm_compute; reflexivity))
    as (prompt & Hrun).
  exact Hrun.
Defined.

Lemma display_insights_after_research_witness :
  exists w' lines,
    @process_news_data research news (start []) = (Ok true, w')
    /\ display_insights (all_insights w') (all_key_players w') (all_tickers w') = Ok lines.
Proof.
  eexists.
  destruct (proj2 (display_insights_after_research (H := research) news (start []) _
                     ltac:(vm_compute; reflexivity))
              ltac:(repeat constructor; eexists; reflexivity)) as (lines & Hlines).
  exists lines. split; [vm_compute; reflexivity|exact Hlines].
Defined.

Lemma display_insights_tickers_witness :
  exists lines,
    display_insights (all_insights priced) [] [PStr "NVDA"; PStr "TSLA"] = Ok lines
    /\ In (ShownTicker (PStr "TSLA")) lines
    /\ In (SummaryTicker (PStr "NVDA")) lines.
Proof.
  eexists. split; [vm_compute; reflexivity|].
  destruct (display_insights_tickers (all_insights priced) [] [PStr "NVDA"; PStr "TSLA"] _
              ltac:(vm_compute; reflexivity)) as (Hshown & Hsummary & _).
  split.
  - apply Hshown. eexists _, (PDict [("ticker", PStr "TSLA"); ("analysis", PStr "down")]).
    split; [left; reflexivity|]. split; [right; left; reflexivity|reflexivity].
  - apply Hsummary. left. reflexivity.
Defined.

Lemma display_stock_prices_completed_witness :
  exists lines w',
    @display_stock_prices pricing (all_tickers priced) priced = (Ok lines, w')
    /\ omap priced_ticker lines = [PStr "NVDA"; PStr "TSLA"].
Proof.
  eexists _, _. split; [vm_compute; reflexivity|].
  exact (proj1 (display_stock_prices_completed (H := pricing) (all_tickers priced) priced _ _
                  ltac:(vm_compute; reflexivity))).
Defined.

Lemma display_stock_prices_analyses_witness :
  exists r d,
    In r (all_insights priced)
    /\ In (PDict d) (elements (record_field "tickers" r))
    /\ is_Some (dict_lookup "ticker" d)
    /\ dict_lookup "analysis" d = Some (PStr "down").
Proof.
  refine (display_stock_prices_analyses (H := pricing) (all_tickers priced) priced
            [ShownPrice (PStr "NVDA") "NVDA is at 120.";
             ShownPrice (PStr "TSLA") "TSLA is at 250."; ShownAnalysis (PStr "down")]
            (set_stdin [] (set_llm_calls 2 priced)) (PStr "down") _ _).
  - vm_compute. reflexivity.
  - right. right. left. reflexivity.
Defined.

Lemma do_research_keeps_results_witness :
  let asked := mkWorld (all_insights previous) (all_key_players previous)
                 (all_tickers previous) 0 ["chips"; "y"] ∅ in
  @do_research chatty desk asked = (Ok tt, set_llm_calls 1 (set_stdin ["y"] asked))
  /\ @do_research (news_of (PList [PDict [("title", PStr "No link")]])) desk asked
     = (Ok tt, set_llm_calls 1 (set_stdin ["y"] asked))
  /\ @do_research chatty desk (set_stdin [EmptyString] asked) = (Ok tt, set_stdin [] asked)
  /\ @do_research deep desk asked
     = (Raise RecursionError, set_llm_calls 1 (set_stdin ["y"] asked)).
Proof.
  intros asked. split; [|split; [|split]].
  - refine (proj1 (proj2 (do_research_keeps_results (H := chatty) (H0 := desk) asked
                     "chips" ["y"] _) (mkLLMResponse [] "Here are the top stories.") _ _) _);
      try reflexivity. discriminate.
  - refine (proj2 (proj2 (do_research_keeps_results
                     (H := news_of (PList [PDict [("title", PStr "No link")]])) (H0 := desk)
                     asked "chips" ["y"] _) (mkLLMResponse [] "news") _ _)
              [PDict [("title", PStr "No link")]] _ _); try reflexivity; try discriminate.
    intros a [<-|[]]. reflexivity.
  - refine (proj1 (do_research_keeps_results (H := chatty) (H0 := desk)
                     (set_stdin [EmptyString] asked) EmptyString [] _) _); reflexivity.
  - refine (proj1 (proj2 (do_research_keeps_results (H := deep) (H0 := desk) asked
                     "chips" ["y"] _) (mkLLMResponse [] nested) _ _) _);
      try reflexivity. discriminate.
Defined.

Lemma do_research_failures_witness :
  @do_research unreachable desk (set_stdin ["chips"] previous)
  = (Raise (RequestError "connection refused"), set_llm_calls 1 previous)
  /\ @do_research (news_of (PList [PDict untitled])) desk (set_stdin ["chips"] previous)
     = (Raise (KeyError "title"), set_llm_calls 1 previous).
Proof.
  split.
  - refine (proj1 (do_research_failures (H := unreachable) (H0 := desk)
                     (set_stdin ["chips"] previous) "chips" [] _ _)
              (RequestError "connection refused") _); try reflexivity. discriminate.
  - refine (proj2 (do_research_failures (H := news_of (PList [PDict untitled])) (H0 := desk)
                     (set_stdin ["chips"] previous) "chips" [] _ _)
              (mkLLMResponse [] "news") (PList [PDict untitled]) (KeyError "title")
              (set_llm_calls 1 previous) _ _ _); try reflexivity. discriminate.
Defined.

Lemma lookup_stock_frame_witness :
  @lookup_stock (quoting (PStr "187.50") direct_replies) desk (set_stdin [EmptyString] previous)
  = (Ok tt, previous)
  /\ exists j, (1 <= j <= 2)%nat
     /\ set_llm_calls 1 previous
        = set_stdin []
            (set_llm_calls (llm_calls (set_stdin ["AAPL"; EmptyString] previous) + j)
               (set_stdin ["AAPL"; EmptyString] previous)).
Proof.
  split.
  - refine (proj1 (lookup_stock_frame (H := quoting (PStr "187.50") direct_replies)
                     (H0 := desk) (set_stdin [EmptyString] previous) EmptyString [] _) _);
      reflexivity.
  - destruct (proj2 (lookup_stock_frame (H := quoting (PStr "187.50") direct_replies)
                       (H0 := desk) (set_stdin ["AAPL"; EmptyString] previous)
                       "AAPL" [EmptyString] ltac:(reflexivity))
                (set_llm_calls 1 previous) ltac:(discriminate) ltac:(vm_compute; reflexivity))
      as (enter & rest' & j & Hrest & Hj & Hw).
    injection Hrest as <- <-. exists j. split; [exact Hj|exact Hw].
Defined.

Lemma do_research_found_witness :
  exists w4,
    @do_research newsroom desk (start ["chips"; "y"]) = (Ok tt, w4)
    /\ llm_calls w4 = 4%nat
    /\ all_tickers w4 = [PStr "NVDA"; PStr "AMD"; PStr "TSLA"].
Proof.
  eexists. split.
  - refine (proj2 (do_research_found (H := newsroom) (H0 := desk) (start ["chips"; "y"])
                     "chips" ["y"] (mkLLMResponse [] "news") news _ _ "y" [] _ _ _ _ _ _ _)
              _ (Raise JSONDecodeError) _ _);
      try (vm_compute; reflexivity).
    discriminate.
  - split; reflexivity.
Defined.
